(** * Sentinel: situation analyzer, response library and composition engine

    A shallow embedding of [src/ai/analyzer.ts], [src/ai/responses.ts],
    [src/components/registry/index.ts] and the composition engine under
    [src/components/composition/], with the properties of the design
    document stated and settled against it.

    JavaScript values are modelled as the run time has them: strings are
    sequences of UTF-16 code units, numbers that carry a confidence are
    IEEE binary64 floats ([PrimFloat]), counters and priorities are
    integers, plain objects used as tables are finite maps whose lookups
    fall back to [Object.prototype]. *)

From Stdlib Require Import ZArith NArith List String Ascii Bool Lia.
From Stdlib Require Import PrimFloat Uint63 Sorted Permutation.
From stdpp Require Import base option gmap strings.

Set Warnings "-inexact-float,-register-all".

(* ================================================================== *)
(** * JavaScript strings and regular expressions *)

Module Js.

(** A string is a sequence of UTF-16 code units. *)
Definition code_unit := N.
Definition js_string := list code_unit.

Definition of_ascii (s : string) : js_string :=
  List.map N_of_ascii (list_ascii_of_string s).

(** [\s]: the WhiteSpace and LineTerminator code points of ECMAScript. *)
Definition is_space (c : code_unit) : bool :=
  ((9 <=? c) && (c <=? 13) || (c =? 32) || (c =? 160) || (c =? 5760)
   || (8192 <=? c) && (c <=? 8202) || (c =? 8232) || (c =? 8233)
   || (c =? 8239) || (c =? 8287) || (c =? 12288) || (c =? 65279))%N.

(** Word characters of [\b] for a pattern without the [u] flag. *)
Definition is_word (c : code_unit) : bool :=
  ((48 <=? c) && (c <=? 57) || (65 <=? c) && (c <=? 90) || (c =? 95)
   || (97 <=? c) && (c <=? 122))%N.

(** Canonicalize of the [i] flag without [u]: the upper-case mapping,
    refused when it would send a non-ASCII unit to an ASCII one.  Every
    literal of the pattern tables is ASCII, so only the ASCII part of the
    mapping can decide a comparison; the other units are left as they
    are. *)
Definition canonicalize (c : code_unit) : code_unit :=
  if ((97 <=? c) && (c <=? 122))%N then (c - 32)%N else c.

Definition same_letter (a : ascii) (c : code_unit) : bool :=
  (canonicalize (N_of_ascii a) =? canonicalize c)%N.

(** Members of a character class [[...]]. *)
Inductive atom : Type :=
| AChar (a : ascii)
| ASpace.

Definition atom_matches (c : code_unit) (x : atom) : bool :=
  match x with
  | AChar a => same_letter a c
  | ASpace => is_space c
  end.

(** The fragment of the pattern language the tables use. *)
Inductive regex : Type :=
| REmpty
| RChar (a : ascii)
| RSpace
| RBoundary
| RClass (items : list atom)
| RSeq (r1 r2 : regex)
| RAlt (r1 r2 : regex)
| ROpt (r : regex)
| RPlus (r : regex)
| RStar (r : regex).

(** A matcher position: the unit just before it and the units ahead. *)
Definition state : Type := option code_unit * js_string.

Definition consume (p : code_unit -> bool) (st : state) : list state :=
  match snd st with
  | c :: rest => if p c then [(Some c, rest)] else []
  | [] => []
  end.

Definition at_boundary (st : state) : bool :=
  xorb (match fst st with Some c => is_word c | None => false end)
       (match snd st with c :: _ => is_word c | [] => false end).

(** Zero or more rounds of [f]; a round that consumes nothing is
    dropped, as RepeatMatcher does. *)
Fixpoint iterate (fuel : nat) (f : state -> list state) (st : state)
  : list state :=
  st :: match fuel with
        | O => []
        | S n =>
            flat_map (iterate n f)
              (List.filter
                 (fun st' => length (snd st') <? length (snd st))%nat
                 (f st))
        end.

(** All positions at which a match of [r] started at [st] can end. *)
Fixpoint run (r : regex) (st : state) : list state :=
  match r with
  | REmpty => [st]
  | RChar a => consume (same_letter a) st
  | RSpace => consume is_space st
  | RBoundary => if at_boundary st then [st] else []
  | RClass items => consume (fun c => existsb (atom_matches c) items) st
  | RSeq r1 r2 => flat_map (run r2) (run r1 st)
  | RAlt r1 r2 => run r1 st ++ run r2 st
  | ROpt r1 => run r1 st ++ [st]
  | RPlus r1 => flat_map (iterate (length (snd st)) (run r1)) (run r1 st)
  | RStar r1 => iterate (length (snd st)) (run r1) st
  end.

(** [RegExp.prototype.test] for a pattern without [g] or [y]: a match
    may start at any index, the end of the string included. *)
Fixpoint search (r : regex) (prev : option code_unit) (s : js_string)
  : bool :=
  match run r (prev, s) with
  | _ :: _ => true
  | [] => match s with
          | [] => false
          | c :: rest => search r (Some c) rest
          end
  end.

Definition test (r : regex) (input : js_string) : bool :=
  search r None input.

(** Pattern-building helpers. *)
Fixpoint lit (s : string) : regex :=
  match s with
  | EmptyString => REmpty
  | String a s' => RSeq (RChar a) (lit s')
  end.

Fixpoint cat (rs : list regex) : regex :=
  match rs with
  | [] => REmpty
  | r :: rs' => RSeq r (cat rs')
  end.

Definition spaces : regex := RPlus RSpace.

(** [Array.prototype.sort] with a comparator.  The sort is stable
    (ECMAScript 2019), so for a consistent comparator its result is the
    one a stable insertion sort gives: [x] moves behind [y] only when
    [cmp x y > 0]. *)
Section Sort.
Context {A : Type} (cmp : A -> A -> Z).

Fixpoint insert_stable (x : A) (l : list A) : list A :=
  match l with
  | [] => [x]
  | y :: l' =>
      if (0 <? cmp x y)%Z then y :: insert_stable x l' else x :: l
  end.

Fixpoint sort (l : list A) : list A :=
  match l with
  | [] => []
  | x :: l' => insert_stable x (sort l')
  end.
End Sort.

(** [Math.min] on two numbers. *)
Definition is_neg_zero (x : float) : bool :=
  match PrimFloat.classify x with
  | FloatClass.NZero => true
  | _ => false
  end.

Definition Math_min (x y : float) : float :=
  if PrimFloat.is_nan x || PrimFloat.is_nan y then PrimFloat.nan
  else if PrimFloat.ltb x y then x
  else if PrimFloat.ltb y x then y
  else if is_neg_zero x then x else y.

(** [Math.round]: the nearest integer, a tie going towards positive
    infinity; a result of zero keeps the sign of the argument.  Below
    [2^52] in magnitude the nearest-even integer is obtained by adding
    and subtracting [2^52]. *)
Definition two52 : float := 4503599627370496.

Definition Math_round (x : float) : float :=
  if PrimFloat.is_nan x || PrimFloat.is_infinity x || PrimFloat.is_zero x
     || PrimFloat.leb two52 (PrimFloat.abs x)
  then x
  else
    let a := PrimFloat.abs x in
    let t := (a + two52 - two52)%float in
    if PrimFloat.ltb 0 x then
      let f := if PrimFloat.ltb a t then (t - 1)%float else t in
      if PrimFloat.leb 0.5 (a - f) then (f + 1)%float else f
    else
      let c := if PrimFloat.ltb t a then (t + 1)%float else t in
      if PrimFloat.leb 0.5 (c - a) then (- (c - 1))%float else (- c)%float.

(** An integer-valued number, as a float. *)
Definition number_of_Z (z : Z) : float :=
  PrimFloat.of_uint63 (Uint63.of_Z z).

(** Property read [o[k]] on an object literal with own properties [own]:
    an own property, else a member of [Object.prototype], else
    [undefined]. *)
Definition object_prototype_keys : list string :=
  ["constructor"; "__proto__"; "hasOwnProperty"; "isPrototypeOf";
   "propertyIsEnumerable"; "toLocaleString"; "toString"; "valueOf";
   "__defineGetter__"; "__defineSetter__"; "__lookupGetter__";
   "__lookupSetter__"]%string.

Inductive member (A : Type) : Type :=
| Declared (a : A)
| Builtin (name : string).
Arguments Declared {A} a.
Arguments Builtin {A} name.

(** [None] is [undefined]; [o[k] ?? d] is then [default d (get o k)]. *)
Definition get {A : Type} (own : gmap string A) (k : string)
  : option (member A) :=
  match own !! k with
  | Some a => Some (Declared a)
  | None =>
      if existsb (String.eqb k) object_prototype_keys
      then Some (Builtin k) else None
  end.

End Js.

(* ================================================================== *)
(** * The schema contract ([src/types/schema.ts]) *)

Inductive IntentType : Type :=
| overview | investigation | incident | escalation | exploration.

Inductive UrgencyLevel : Type :=
| low | medium | high | critical.

Inductive VisibilityState : Type :=
| visible | hidden | conditional.

Definition IntentType_eqb (a b : IntentType) : bool :=
  match a, b with
  | overview, overview | investigation, investigation
  | incident, incident | escalation, escalation
  | exploration, exploration => true
  | _, _ => false
  end.

Definition UrgencyLevel_eqb (a b : UrgencyLevel) : bool :=
  match a, b with
  | low, low | medium, medium | high, high | critical, critical => true
  | _, _ => false
  end.

(** The string a value of the union is at run time. *)
Definition intent_name (i : IntentType) : string :=
  match i with
  | overview => "overview"
  | investigation => "investigation"
  | incident => "incident"
  | escalation => "escalation"
  | exploration => "exploration"
  end.

(* ================================================================== *)
(** * The situation analyzer ([src/ai/analyzer.ts]) *)

Module Analyzer.
Import Js.

(** A [Record<K, V>] literal whose entry order is observed
    ([Object.entries]) is an association list in declaration order. *)
Fixpoint lookup {K V : Type} (eqb : K -> K -> bool) (k : K)
  (table : list (K * V)) : option V :=
  match table with
  | [] => None
  | (k', v) :: rest => if eqb k' k then Some v else lookup eqb k rest
  end.

Definition INTENT_PATTERNS : list (IntentType * list regex) :=
  [ (incident,
     [ RSeq (lit "fail") (ROpt (RAlt (lit "ure") (RAlt (lit "ing") (lit "ed"))));
       RSeq (lit "down") RBoundary;
       lit "error";
       lit "broken";
       lit "outage";
       lit "crash";
       cat [lit "login"; spaces; lit "fail"];
       cat [lit "not"; spaces; lit "work"];
       RSeq (lit "report") (ROpt (RAlt (lit "ing") (lit "ed")));
       lit "issue";
       lit "bug";
       lit "500";
       lit "timeout" ]);
    (overview,
     [ lit "overview";
       lit "summary";
       lit "today";
       lit "status";
       cat [lit "how"; spaces; RAlt (lit "are") (lit "is"); spaces; lit "things"];
       cat [lit "high"; RClass [ASpace; AChar "-"]; lit "level"];
       lit "dashboard";
       cat [lit "what"; ROpt (RChar "'"); lit "s"; spaces; lit "happening"];
       lit "general";
       RSeq (lit "brief") (ROpt (lit "ing")) ]);
    (investigation,
     [ lit "investigat";
       cat [lit "something"; spaces;
            RAlt (RSeq (lit "feel") (ROpt (RChar "s")))
                 (RSeq (lit "seem") (ROpt (RChar "s")))];
       cat [RBoundary; lit "off"; RBoundary];
       lit "anomal";
       lit "suspicious";
       cat [lit "dig"; spaces; RAlt (lit "in") (lit "into")];
       cat [lit "look"; spaces; lit "into"];
       cat [lit "root"; spaces; lit "cause"];
       cat [RBoundary; lit "why"; RBoundary];
       lit "weird";
       lit "strange";
       lit "unusual" ]);
    (escalation,
     [ lit "escalat";
       lit "urgent";
       lit "critical";
       cat [lit "what"; spaces; lit "should"; spaces; lit "I"; spaces; lit "do"];
       lit "action";
       cat [RBoundary; lit "help"; RBoundary];
       cat [RBoundary; lit "now"; RBoundary];
       lit "immediate";
       lit "emergency";
       lit "worst";
       cat [lit "getting"; spaces; lit "worse"];
       lit "spreading" ]);
    (exploration,
     [ cat [lit "show"; spaces; lit "me"];
       lit "explore";
       cat [lit "tell"; spaces; lit "me"; spaces; lit "about"];
       lit "details";
       cat [lit "more"; spaces; lit "info"];
       lit "drill";
       cat [RBoundary; lit "deep"; RBoundary];
       cat [lit "break"; RStar RSpace; lit "down"] ]) ].

Definition URGENCY_SIGNALS : list (UrgencyLevel * list regex) :=
  [ (critical,
     [ lit "escalat"; lit "emergency"; lit "critical";
       cat [RBoundary; lit "now"; RBoundary];
       lit "immediate"; lit "worst"; lit "spreading" ]);
    (high,
     [ lit "fail"; lit "broken"; RSeq (lit "down") RBoundary; lit "outage";
       lit "crash"; lit "urgent"; lit "reporting" ]);
    (medium,
     [ lit "investigat"; lit "something";
       cat [RBoundary; lit "off"; RBoundary];
       lit "anomal"; lit "suspicious"; lit "weird" ]);
    (low,
     [ lit "overview"; lit "summary"; lit "today";
       lit "general"; lit "status"; lit "brief" ]) ].

(** [INTENT_PATTERNS[intent]] and [URGENCY_SIGNALS[level]]; every key of
    the union is declared, the empty default is never reached. *)
Definition intent_patterns (intent : IntentType) : list regex :=
  default [] (lookup IntentType_eqb intent INTENT_PATTERNS).

Definition urgency_signals (level : UrgencyLevel) : list regex :=
  default [] (lookup UrgencyLevel_eqb level URGENCY_SIGNALS).

(** [scores[intent] += 1] on the score object. *)
Fixpoint bump (intent : IntentType) (scores : list (IntentType * Z))
  : list (IntentType * Z) :=
  match scores with
  | [] => []
  | (k, n) :: rest =>
      if IntentType_eqb k intent then (k, (n + 1)%Z) :: rest
      else (k, n) :: bump intent rest
  end.

Definition score_patterns (input : js_string) (intent : IntentType)
  (patterns : list regex) (scores : list (IntentType * Z))
  : list (IntentType * Z) :=
  fold_left
    (fun sc pattern => if test pattern input then bump intent sc else sc)
    patterns scores.

Definition score_all (input : js_string) : list (IntentType * Z) :=
  fold_left
    (fun sc entry => score_patterns input (fst entry) (snd entry) sc)
    INTENT_PATTERNS
    [ (incident, 0%Z); (overview, 0%Z); (investigation, 0%Z);
      (escalation, 0%Z); (exploration, 0%Z) ].

Definition classifyIntent (input : js_string) : IntentType :=
  let scores := score_all input in
  let sorted := Js.sort (fun a b => (snd b - snd a)%Z) scores in
  match sorted with
  | (intent, n) :: _ => if (0 <? n)%Z then intent else exploration
  | [] => exploration
  end.

(** The inner loop of [classifyUrgency]: does some pattern of the level
    match, tried in declared order. *)
Fixpoint level_matches (patterns : list regex) (input : js_string) : bool :=
  match patterns with
  | [] => false
  | pattern :: rest =>
      if test pattern input then true else level_matches rest input
  end.

Fixpoint first_level (levels : list UrgencyLevel) (input : js_string)
  : option UrgencyLevel :=
  match levels with
  | [] => None
  | level :: rest =>
      if level_matches (urgency_signals level) input then Some level
      else first_level rest input
  end.

Definition classifyUrgency (input : js_string) : UrgencyLevel :=
  match first_level [critical; high; medium; low] input with
  | Some level => level
  | None => low
  end.

Definition count_matches (patterns : list regex) (input : js_string) : Z :=
  fold_left
    (fun matchCount pattern =>
       if test pattern input then (matchCount + 1)%Z else matchCount)
    patterns 0%Z.

Definition baseConfidence (intent : IntentType) : float :=
  match intent with
  | investigation => 0.45
  | exploration => 0.6
  | _ => 0.7
  end%float.

Definition calculateConfidence (intent : IntentType) (input : js_string)
  : float :=
  let matchCount := count_matches (intent_patterns intent) input in
  let bonus := Math_min (number_of_Z matchCount * 0.08) 0.25 in
  Math_min (baseConfidence intent + bonus) 0.95.

(** [keywords], the fourth field of the source's result, is never read
    by [analyzeSituation] and is left out. *)
Record AnalysisResult : Type := {
  intent : IntentType;
  urgency : UrgencyLevel;
  confidence : float;
}.

Definition analyze (input : js_string) : AnalysisResult :=
  let intent := classifyIntent input in
  let urgency := classifyUrgency input in
  let confidence := calculateConfidence intent input in
  {| intent := intent; urgency := urgency; confidence := confidence |}.

End Analyzer.

(** Props are passed through to the widgets unread; they are kept as
    the literal the source writes.  Display strings are UTF-8. *)
Inductive json : Type :=
| JStr (s : string)
| JNum (x : float)
| JBool (b : bool)
| JArr (items : list json)
| JObj (fields : list (string * json)).
Arguments JNum x%_float.

(** [type] and [layout] are the strings that arrive at run time: the
    engine's fallbacks exist for values outside the declared unions.
    [priority] is an integer, as the data model has it. *)
Record UIComponentSpec : Type := {
  id : string;
  type : string;
  props : json;
  priority : Z;
  visibility : VisibilityState;
  visibilityCondition : option string;
}.

(** [hidden_type] is the source's field [type]. *)
Record HiddenComponentExplanation : Type := {
  hidden_type : string;
  reason : string;
}.

Record AIReasoning : Type := {
  intent : IntentType;
  urgency : UrgencyLevel;
  uncertaintyAreas : list string;
  hiddenComponents : list HiddenComponentExplanation;
}.

Record UISchema : Type := {
  layout : string;
  components : list UIComponentSpec;
  confidence : float;
  explanation : string;
  reasoning : AIReasoning;
}.

(* ================================================================== *)
(** * The response library ([src/ai/responses.ts]) *)

Module Responses.
#[local] Open Scope string_scope.
#[local] Open Scope Z_scope.

Definition incidentResponse (confidence : float) : UISchema :=
  {| layout := "grid";
     confidence := confidence;
     explanation :=
       "Incident detected. Displaying critical alerts, affected metrics, timeline of events, system logs, and an action checklist. Grid layout maximizes information density for rapid triage.";
     reasoning :=
       {| intent := incident;
          urgency := high;
          uncertaintyAreas :=
            [ "Root cause not yet confirmed";
              "Full blast radius unknown" ];
          hiddenComponents :=
            [ {| hidden_type := "GeoMap"; reason := "No geographic correlation detected yet" |};
              {| hidden_type := "InsightSummary"; reason := "Not enough data for hypotheses — incident is active" |} ] |};
     components :=
       [ {| id := "banner-1"; type := "StatusBanner"; priority := 1; visibility := visible;
            visibilityCondition := None;
            props :=
              JObj
                [ ("status", JStr "critical");
                  ("title", JStr "ACTIVE INCIDENT — Authentication Service Degradation");
                  ("message", JStr "Multiple users reporting login failures across web and mobile. Auth service error rate elevated since 14:23 UTC.");
                  ("timestamp", JStr "14:23 UTC") ] |};
         {| id := "alert-1"; type := "AlertPanel"; priority := 2; visibility := visible;
            visibilityCondition := None;
            props :=
              JObj
                [ ("title", JStr "Active Alerts");
                  ("alerts", JArr
                    [ JObj
                        [ ("id", JStr "a1");
                          ("severity", JStr "critical");
                          ("message", JStr "Auth service: 47% request failure rate (threshold: 5%)");
                          ("timestamp", JStr "14:23 UTC");
                          ("source", JStr "auth-service") ];
                      JObj
                        [ ("id", JStr "a2");
                          ("severity", JStr "critical");
                          ("message", JStr "Session token generation failing — Redis connection pool exhausted");
                          ("timestamp", JStr "14:25 UTC");
                          ("source", JStr "session-mgr") ];
                      JObj
                        [ ("id", JStr "a3");
                          ("severity", JStr "warning");
                          ("message", JStr "Client retry storm detected — 3.2x normal request volume");
                          ("timestamp", JStr "14:27 UTC");
                          ("source", JStr "api-gateway") ];
                      JObj
                        [ ("id", JStr "a4");
                          ("severity", JStr "info");
                          ("message", JStr "Status page auto-updated: Auth service degraded");
                          ("timestamp", JStr "14:30 UTC");
                          ("source", JStr "statuspage") ] ]) ] |};
         {| id := "metric-1"; type := "MetricCard"; priority := 3; visibility := visible;
            visibilityCondition := None;
            props :=
              JObj
                [ ("title", JStr "Login Failure Rate");
                  ("value", JStr "47%");
                  ("change", JNum 340);
                  ("changeDirection", JStr "up");
                  ("status", JStr "critical") ] |};
         {| id := "metric-2"; type := "MetricCard"; priority := 3; visibility := visible;
            visibilityCondition := None;
            props :=
              JObj
                [ ("title", JStr "Affected Users");
                  ("value", JStr "2,847");
                  ("change", JNum 89);
                  ("changeDirection", JStr "up");
                  ("status", JStr "critical") ] |};
         {| id := "metric-3"; type := "MetricCard"; priority := 4; visibility := visible;
            visibilityCondition := None;
            props :=
              JObj
                [ ("title", JStr "Avg Response Time");
                  ("value", JStr "12.3");
                  ("unit", JStr "s");
                  ("change", JNum 780);
                  ("changeDirection", JStr "up");
                  ("status", JStr "warning") ] |};
         {| id := "metric-4"; type := "MetricCard"; priority := 4; visibility := visible;
            visibilityCondition := None;
            props :=
              JObj
                [ ("title", JStr "Healthy Endpoints");
                  ("value", JStr "23/31");
                  ("status", JStr "warning") ] |};
         {| id := "timeline-1"; type := "TimelineView"; priority := 5; visibility := visible;
            visibilityCondition := None;
            props :=
              JObj
                [ ("title", JStr "Incident Timeline");
                  ("events", JArr
                    [ JObj
                        [ ("id", JStr "e1");
                          ("timestamp", JStr "14:18 UTC");
                          ("title", JStr "Redis latency spike detected");
                          ("description", JStr "Redis cluster node-3 latency exceeded 500ms threshold");
                          ("severity", JStr "warning") ];
                      JObj
                        [ ("id", JStr "e2");
                          ("timestamp", JStr "14:23 UTC");
                          ("title", JStr "Auth service errors surge");
                          ("description", JStr "Error rate jumped from 0.3% to 47% in 90 seconds");
                          ("severity", JStr "critical") ];
                      JObj
                        [ ("id", JStr "e3");
                          ("timestamp", JStr "14:25 UTC");
                          ("title", JStr "Connection pool exhausted");
                          ("description", JStr "Redis connection pool at 100% capacity — new connections rejected");
                          ("severity", JStr "critical") ];
                      JObj
                        [ ("id", JStr "e4");
                          ("timestamp", JStr "14:27 UTC");
                          ("title", JStr "Retry storm begins");
                          ("description", JStr "Client-side retries amplifying load by 3.2x");
                          ("severity", JStr "warning") ];
                      JObj
                        [ ("id", JStr "e5");
                          ("timestamp", JStr "14:30 UTC");
                          ("title", JStr "Automated alert triggered");
                          ("description", JStr "PagerDuty incident created, on-call team notified");
                          ("severity", JStr "info") ] ]) ] |};
         {| id := "logs-1"; type := "LogViewer"; priority := 6; visibility := visible;
            visibilityCondition := None;
            props :=
              JObj
                [ ("title", JStr "Auth Service Logs");
                  ("logs", JArr
                    [ JObj
                        [ ("id", JStr "l1");
                          ("timestamp", JStr "14:23:01");
                          ("level", JStr "error");
                          ("source", JStr "auth-svc");
                          ("message", JStr "ETIMEDOUT: Redis connection timed out after 3000ms") ];
                      JObj
                        [ ("id", JStr "l2");
                          ("timestamp", JStr "14:23:02");
                          ("level", JStr "error");
                          ("source", JStr "auth-svc");
                          ("message", JStr "Failed to generate session token: pool exhausted (128/128)") ];
                      JObj
                        [ ("id", JStr "l3");
                          ("timestamp", JStr "14:23:03");
                          ("level", JStr "warn");
                          ("source", JStr "api-gw");
                          ("message", JStr "Upstream auth-svc returned 503 — circuit breaker OPEN") ];
                      JObj
                        [ ("id", JStr "l4");
                          ("timestamp", JStr "14:23:05");
                          ("level", JStr "error");
                          ("source", JStr "auth-svc");
                          ("message", JStr "Token validation failed: cannot reach Redis cluster") ];
                      JObj
                        [ ("id", JStr "l5");
                          ("timestamp", JStr "14:23:08");
                          ("level", JStr "info");
                          ("source", JStr "monitor");
                          ("message", JStr "Error rate threshold exceeded — triggering PagerDuty alert") ];
                      JObj
                        [ ("id", JStr "l6");
                          ("timestamp", JStr "14:23:12");
                          ("level", JStr "error");
                          ("source", JStr "auth-svc");
                          ("message", JStr "Connection retry 3/3 failed for redis-node-3:6379") ] ]) ] |};
         {| id := "actions-1"; type := "ActionChecklist"; priority := 7; visibility := visible;
            visibilityCondition := None;
            props :=
              JObj
                [ ("title", JStr "Incident Response Actions");
                  ("items", JArr
                    [ JObj
                        [ ("id", JStr "c1");
                          ("label", JStr "Acknowledge incident in PagerDuty");
                          ("completed", JBool true);
                          ("priority", JStr "critical") ];
                      JObj
                        [ ("id", JStr "c2");
                          ("label", JStr "Open incident Slack channel #inc-auth-20260207");
                          ("completed", JBool true);
                          ("priority", JStr "critical") ];
                      JObj
                        [ ("id", JStr "c3");
                          ("label", JStr "Check Redis cluster node health");
                          ("completed", JBool false);
                          ("priority", JStr "critical") ];
                      JObj
                        [ ("id", JStr "c4");
                          ("label", JStr "Enable circuit breaker bypass for VIP users");
                          ("completed", JBool false);
                          ("priority", JStr "high") ];
                      JObj
                        [ ("id", JStr "c5");
                          ("label", JStr "Scale up Redis connection pool limit");
                          ("completed", JBool false);
                          ("priority", JStr "high") ];
                      JObj
                        [ ("id", JStr "c6");
                          ("label", JStr "Notify affected enterprise customers");
                          ("completed", JBool false);
                          ("priority", JStr "medium") ];
                      JObj
                        [ ("id", JStr "c7");
                          ("label", JStr "Prepare status page update");
                          ("completed", JBool false);
                          ("priority", JStr "medium") ] ]) ] |};
         {| id := "recs-1"; type := "RecommendationStrip"; priority := 8; visibility := visible;
            visibilityCondition := None;
            props :=
              JObj
                [ ("recommendations", JArr
                    [ JObj
                        [ ("id", JStr "r1");
                          ("title", JStr "Restart Redis node-3");
                          ("description", JStr "Primary suspect based on timeline correlation");
                          ("urgency", JStr "critical");
                          ("action", JStr "Execute Restart") ];
                      JObj
                        [ ("id", JStr "r2");
                          ("title", JStr "Enable rate limiting");
                          ("description", JStr "Suppress retry storm at API gateway level");
                          ("urgency", JStr "high");
                          ("action", JStr "Apply Config") ];
                      JObj
                        [ ("id", JStr "r3");
                          ("title", JStr "Failover to backup cluster");
                          ("description", JStr "Switch to redis-backup if restart fails");
                          ("urgency", JStr "high");
                          ("action", JStr "Initiate Failover") ] ]) ] |} ] |}.

Definition overviewResponse (confidence : float) : UISchema :=
  {| layout := "grid";
     confidence := confidence;
     explanation :=
       "Overview requested. Showing system health banner, key performance metrics, traffic trend, error distribution, and a summary of observations. Grid layout for at-a-glance comprehension.";
     reasoning :=
       {| intent := overview;
          urgency := low;
          uncertaintyAreas :=
            [];
          hiddenComponents :=
            [ {| hidden_type := "AlertPanel"; reason := "No active alerts — system is healthy" |};
              {| hidden_type := "LogViewer"; reason := "Not relevant for high-level overview" |};
              {| hidden_type := "ActionChecklist"; reason := "No active incidents requiring action" |};
              {| hidden_type := "GeoMap"; reason := "Geographic view not requested" |} ] |};
     components :=
       [ {| id := "banner-1"; type := "StatusBanner"; priority := 1; visibility := visible;
            visibilityCondition := None;
            props :=
              JObj
                [ ("status", JStr "healthy");
                  ("title", JStr "System Overview — February 7, 2026");
                  ("message", JStr "All services operational. No active incidents. Last deployment: 2 hours ago (v3.14.2).");
                  ("timestamp", JStr "Updated 30s ago") ] |};
         {| id := "metric-1"; type := "MetricCard"; priority := 2; visibility := visible;
            visibilityCondition := None;
            props :=
              JObj
                [ ("title", JStr "Active Users");
                  ("value", JStr "12,847");
                  ("change", JNum 12);
                  ("changeDirection", JStr "up");
                  ("status", JStr "normal") ] |};
         {| id := "metric-2"; type := "MetricCard"; priority := 2; visibility := visible;
            visibilityCondition := None;
            props :=
              JObj
                [ ("title", JStr "Requests/sec");
                  ("value", JStr "3,421");
                  ("change", JNum 5);
                  ("changeDirection", JStr "up");
                  ("status", JStr "normal") ] |};
         {| id := "metric-3"; type := "MetricCard"; priority := 2; visibility := visible;
            visibilityCondition := None;
            props :=
              JObj
                [ ("title", JStr "Avg Latency");
                  ("value", JStr "45");
                  ("unit", JStr "ms");
                  ("change", JNum 3);
                  ("changeDirection", JStr "down");
                  ("status", JStr "normal") ] |};
         {| id := "metric-4"; type := "MetricCard"; priority := 2; visibility := visible;
            visibilityCondition := None;
            props :=
              JObj
                [ ("title", JStr "Uptime");
                  ("value", JStr "99.97");
                  ("unit", JStr "%");
                  ("status", JStr "normal") ] |};
         {| id := "chart-1"; type := "ChartView"; priority := 3; visibility := visible;
            visibilityCondition := None;
            props :=
              JObj
                [ ("title", JStr "Traffic (Last 12 Hours)");
                  ("chartType", JStr "area");
                  ("color", JStr "#3b82f6");
                  ("data", JArr
                    [ JObj [("label", JStr "6AM"); ("value", JNum 1200)];
                      JObj [("label", JStr "7AM"); ("value", JNum 1800)];
                      JObj [("label", JStr "8AM"); ("value", JNum 2900)];
                      JObj [("label", JStr "9AM"); ("value", JNum 3400)];
                      JObj [("label", JStr "10AM"); ("value", JNum 3200)];
                      JObj [("label", JStr "11AM"); ("value", JNum 3100)];
                      JObj [("label", JStr "12PM"); ("value", JNum 2800)];
                      JObj [("label", JStr "1PM"); ("value", JNum 3000)];
                      JObj [("label", JStr "2PM"); ("value", JNum 3421)];
                      JObj [("label", JStr "3PM"); ("value", JNum 3300)];
                      JObj [("label", JStr "4PM"); ("value", JNum 3100)];
                      JObj [("label", JStr "5PM"); ("value", JNum 2500)] ]) ] |};
         {| id := "chart-2"; type := "ChartView"; priority := 4; visibility := visible;
            visibilityCondition := None;
            props :=
              JObj
                [ ("title", JStr "Error Rate by Service");
                  ("chartType", JStr "bar");
                  ("color", JStr "#f59e0b");
                  ("data", JArr
                    [ JObj [("label", JStr "API"); ("value", JNum 0.3)];
                      JObj [("label", JStr "Auth"); ("value", JNum 0.1)];
                      JObj [("label", JStr "Payment"); ("value", JNum 0.2)];
                      JObj [("label", JStr "Search"); ("value", JNum 0.5)];
                      JObj [("label", JStr "CDN"); ("value", JNum 0.05)] ]) ] |};
         {| id := "insights-1"; type := "InsightSummary"; priority := 5; visibility := visible;
            visibilityCondition := None;
            props :=
              JObj
                [ ("title", JStr "Today's Observations");
                  ("insights", JArr
                    [ JObj
                        [ ("id", JStr "i1");
                          ("text", JStr "Traffic is 12% above weekly average — possibly driven by marketing campaign launch");
                          ("confidence", JNum 0.85);
                          ("category", JStr "Traffic") ];
                      JObj
                        [ ("id", JStr "i2");
                          ("text", JStr "Search service error rate (0.5%) is slightly elevated but within SLA bounds");
                          ("confidence", JNum 0.72);
                          ("category", JStr "Health") ];
                      JObj
                        [ ("id", JStr "i3");
                          ("text", JStr "Deployment v3.14.2 has been stable for 2 hours with zero rollback signals");
                          ("confidence", JNum 0.93);
                          ("category", JStr "Deployment") ];
                      JObj
                        [ ("id", JStr "i4");
                          ("text", JStr "User session duration increased 8% after last feature release");
                          ("confidence", JNum 0.68);
                          ("category", JStr "Product") ] ]) ] |};
         {| id := "recs-1"; type := "RecommendationStrip"; priority := 6; visibility := visible;
            visibilityCondition := None;
            props :=
              JObj
                [ ("recommendations", JArr
                    [ JObj
                        [ ("id", JStr "r1");
                          ("title", JStr "Monitor Search Service");
                          ("description", JStr "Error rate is at upper bound of normal range");
                          ("urgency", JStr "low");
                          ("action", JStr "View Details") ];
                      JObj
                        [ ("id", JStr "r2");
                          ("title", JStr "Review Traffic Spike");
                          ("description", JStr "Confirm correlation with marketing campaign");
                          ("urgency", JStr "low");
                          ("action", JStr "View Analytics") ] ]) ] |} ] |}.

Definition investigationResponse (confidence : float) : UISchema :=
  {| layout := "split";
     confidence := Js.Math_min confidence 0.54;
     explanation :=
       "Investigation mode activated. Low confidence — presenting hypotheses rather than conclusions. Split layout: left side shows anomaly analysis, right side shows evidence (logs, timeline, map). UI is intentionally exploratory to avoid premature conclusions.";
     reasoning :=
       {| intent := investigation;
          urgency := medium;
          uncertaintyAreas :=
            [ "Anomaly pattern not yet conclusive";
              "Correlation ≠ causation — multiple hypotheses active";
              "Geographic correlation needs more data points";
              "Temporal pattern may be coincidental" ];
          hiddenComponents :=
            [ {| hidden_type := "ActionChecklist"; reason := "No confirmed incident yet — premature for action items" |};
              {| hidden_type := "RecommendationStrip"; reason := "Confidence too low for directive recommendations" |};
              {| hidden_type := "AlertPanel"; reason := "No triggered alerts — anomalies are sub-threshold" |} ] |};
     components :=
       [ {| id := "banner-1"; type := "StatusBanner"; priority := 1; visibility := visible;
            visibilityCondition := None;
            props :=
              JObj
                [ ("status", JStr "investigating");
                  ("title", JStr "Investigation Mode — Anomaly Analysis");
                  ("message", JStr "Analyzing system behavior patterns. Multiple hypotheses under evaluation. No confirmed incident.");
                  ("timestamp", JStr "Started just now") ] |};
         {| id := "insights-1"; type := "InsightSummary"; priority := 2; visibility := visible;
            visibilityCondition := None;
            props :=
              JObj
                [ ("title", JStr "Hypotheses Under Investigation");
                  ("insights", JArr
                    [ JObj
                        [ ("id", JStr "h1");
                          ("text", JStr "Memory leak in payment-service — RSS growing 2.1% per hour, correlates with p99 latency increase");
                          ("confidence", JNum 0.62);
                          ("category", JStr "Memory") ];
                      JObj
                        [ ("id", JStr "h2");
                          ("text", JStr "Unusual API call pattern from IP block 203.0.113.x — 4x normal rate, possible scraping");
                          ("confidence", JNum 0.41);
                          ("category", JStr "Security") ];
                      JObj
                        [ ("id", JStr "h3");
                          ("text", JStr "Database query planner regression after last migration — slow queries up 18%");
                          ("confidence", JNum 0.55);
                          ("category", JStr "Database") ];
                      JObj
                        [ ("id", JStr "h4");
                          ("text", JStr "CDN cache hit ratio dropped from 94% to 87% — possible cache poisoning or config drift");
                          ("confidence", JNum 0.38);
                          ("category", JStr "Infrastructure") ] ]) ] |};
         {| id := "chart-1"; type := "ChartView"; priority := 3; visibility := visible;
            visibilityCondition := None;
            props :=
              JObj
                [ ("title", JStr "Anomaly Score (Last 6 Hours)");
                  ("chartType", JStr "line");
                  ("color", JStr "#8b5cf6");
                  ("data", JArr
                    [ JObj [("label", JStr "12PM"); ("value", JNum 12)];
                      JObj [("label", JStr "1PM"); ("value", JNum 15)];
                      JObj [("label", JStr "2PM"); ("value", JNum 14)];
                      JObj [("label", JStr "3PM"); ("value", JNum 23)];
                      JObj [("label", JStr "4PM"); ("value", JNum 31)];
                      JObj [("label", JStr "5PM"); ("value", JNum 45)];
                      JObj [("label", JStr "Now"); ("value", JNum 52)] ]) ] |};
         {| id := "timeline-1"; type := "TimelineView"; priority := 4; visibility := visible;
            visibilityCondition := None;
            props :=
              JObj
                [ ("title", JStr "Suspicious Events");
                  ("events", JArr
                    [ JObj
                        [ ("id", JStr "e1");
                          ("timestamp", JStr "12:45 UTC");
                          ("title", JStr "Payment service memory spike");
                          ("description", JStr "RSS jumped 150MB in 10 minutes, triggering GC pressure");
                          ("severity", JStr "warning") ];
                      JObj
                        [ ("id", JStr "e2");
                          ("timestamp", JStr "13:12 UTC");
                          ("title", JStr "Unusual API traffic pattern");
                          ("description", JStr "Burst of 2,400 req/s from single IP block, mostly /api/products");
                          ("severity", JStr "warning") ];
                      JObj
                        [ ("id", JStr "e3");
                          ("timestamp", JStr "14:01 UTC");
                          ("title", JStr "DB slow query spike");
                          ("description", JStr "18% increase in queries exceeding 500ms threshold");
                          ("severity", JStr "warning") ];
                      JObj
                        [ ("id", JStr "e4");
                          ("timestamp", JStr "14:30 UTC");
                          ("title", JStr "CDN cache miss increase");
                          ("description", JStr "Cache hit ratio dropped 7 points — checking for config changes");
                          ("severity", JStr "info") ] ]) ] |};
         {| id := "logs-1"; type := "LogViewer"; priority := 5; visibility := visible;
            visibilityCondition := None;
            props :=
              JObj
                [ ("title", JStr "Correlated Logs");
                  ("logs", JArr
                    [ JObj
                        [ ("id", JStr "l1");
                          ("timestamp", JStr "14:30:12");
                          ("level", JStr "warn");
                          ("source", JStr "payment-svc");
                          ("message", JStr "GC pause 340ms — heap at 89% capacity") ];
                      JObj
                        [ ("id", JStr "l2");
                          ("timestamp", JStr "14:30:15");
                          ("level", JStr "warn");
                          ("source", JStr "api-gw");
                          ("message", JStr "Rate limit approaching for 203.0.113.0/24 (2,100/2,500 rpm)") ];
                      JObj
                        [ ("id", JStr "l3");
                          ("timestamp", JStr "14:30:18");
                          ("level", JStr "info");
                          ("source", JStr "db-monitor");
                          ("message", JStr "Query plan changed for products_search — sequential scan detected") ];
                      JObj
                        [ ("id", JStr "l4");
                          ("timestamp", JStr "14:30:22");
                          ("level", JStr "warn");
                          ("source", JStr "cdn");
                          ("message", JStr "Cache MISS rate above threshold: 13.2% (threshold: 10%)") ];
                      JObj
                        [ ("id", JStr "l5");
                          ("timestamp", JStr "14:30:30");
                          ("level", JStr "info");
                          ("source", JStr "anomaly-det");
                          ("message", JStr "Anomaly score 52/100 — elevated but below alert threshold (70)") ] ]) ] |};
         {| id := "geo-1"; type := "GeoMap"; priority := 6; visibility := visible;
            visibilityCondition := None;
            props :=
              JObj
                [ ("title", JStr "Geographic Anomaly Distribution");
                  ("points", JArr
                    [ JObj
                        [ ("id", JStr "g1");
                          ("label", JStr "US-East");
                          ("x", JNum 28);
                          ("y", JNum 38);
                          ("status", JStr "normal") ];
                      JObj
                        [ ("id", JStr "g2");
                          ("label", JStr "US-West");
                          ("x", JNum 15);
                          ("y", JNum 40);
                          ("status", JStr "normal") ];
                      JObj
                        [ ("id", JStr "g3");
                          ("label", JStr "EU-West");
                          ("x", JNum 48);
                          ("y", JNum 30);
                          ("status", JStr "warning") ];
                      JObj
                        [ ("id", JStr "g4");
                          ("label", JStr "AP-South");
                          ("x", JNum 72);
                          ("y", JNum 55);
                          ("status", JStr "warning") ];
                      JObj
                        [ ("id", JStr "g5");
                          ("label", JStr "AP-East");
                          ("x", JNum 82);
                          ("y", JNum 40);
                          ("status", JStr "critical") ];
                      JObj
                        [ ("id", JStr "g6");
                          ("label", JStr "SA-East");
                          ("x", JNum 33);
                          ("y", JNum 72);
                          ("status", JStr "normal") ] ]) ] |} ] |}.

Definition escalationResponse (confidence : float) : UISchema :=
  {| layout := "stack";
     confidence := confidence;
     explanation :=
       "ESCALATION detected. Switching to directive stack layout that prioritizes actionable information. AlertPanel and ActionChecklist are top priority. Every component is ordered by urgency. Stack layout ensures nothing is missed during rapid response.";
     reasoning :=
       {| intent := escalation;
          urgency := critical;
          uncertaintyAreas :=
            [ "Full impact scope still being assessed";
              "Customer-facing impact duration unknown" ];
          hiddenComponents :=
            [ {| hidden_type := "GeoMap"; reason := "Geographic data not actionable during escalation" |};
              {| hidden_type := "LogViewer"; reason := "Deprioritized — action items are more critical right now" |};
              {| hidden_type := "ChartView"; reason := "Trend data less important than immediate actions" |} ] |};
     components :=
       [ {| id := "banner-1"; type := "StatusBanner"; priority := 1; visibility := visible;
            visibilityCondition := None;
            props :=
              JObj
                [ ("status", JStr "critical");
                  ("title", JStr "ESCALATION — Multiple Systems Affected — Immediate Action Required");
                  ("message", JStr "Situation is spreading beyond initial scope. Payment processing now impacted. Customer-facing degradation confirmed.");
                  ("timestamp", JStr "15:02 UTC — Escalated") ] |};
         {| id := "alert-1"; type := "AlertPanel"; priority := 2; visibility := visible;
            visibilityCondition := None;
            props :=
              JObj
                [ ("title", JStr "Critical Alerts — Cascading Failure");
                  ("alerts", JArr
                    [ JObj
                        [ ("id", JStr "a1");
                          ("severity", JStr "critical");
                          ("message", JStr "Payment gateway: Transaction success rate dropped to 62%");
                          ("timestamp", JStr "15:00 UTC");
                          ("source", JStr "payment-gw") ];
                      JObj
                        [ ("id", JStr "a2");
                          ("severity", JStr "critical");
                          ("message", JStr "Auth service still degraded — retry storm intensifying");
                          ("timestamp", JStr "14:58 UTC");
                          ("source", JStr "auth-svc") ];
                      JObj
                        [ ("id", JStr "a3");
                          ("severity", JStr "critical");
                          ("message", JStr "Customer support queue: 340 tickets in last 15 minutes (10x normal)");
                          ("timestamp", JStr "15:01 UTC");
                          ("source", JStr "support") ];
                      JObj
                        [ ("id", JStr "a4");
                          ("severity", JStr "warning");
                          ("message", JStr "CDN edge nodes in EU-West reporting 504 timeouts");
                          ("timestamp", JStr "14:59 UTC");
                          ("source", JStr "cdn") ];
                      JObj
                        [ ("id", JStr "a5");
                          ("severity", JStr "warning");
                          ("message", JStr "Database connection pool at 91% capacity");
                          ("timestamp", JStr "15:02 UTC");
                          ("source", JStr "db-primary") ] ]) ] |};
         {| id := "actions-1"; type := "ActionChecklist"; priority := 3; visibility := visible;
            visibilityCondition := None;
            props :=
              JObj
                [ ("title", JStr "IMMEDIATE ACTIONS — Escalation Protocol");
                  ("items", JArr
                    [ JObj
                        [ ("id", JStr "c1");
                          ("label", JStr "Page VP of Engineering — P1 escalation");
                          ("completed", JBool false);
                          ("priority", JStr "critical") ];
                      JObj
                        [ ("id", JStr "c2");
                          ("label", JStr "Activate war room — Zoom bridge #incident-war-room");
                          ("completed", JBool false);
                          ("priority", JStr "critical") ];
                      JObj
                        [ ("id", JStr "c3");
                          ("label", JStr "Enable emergency rate limiting across all services");
                          ("completed", JBool false);
                          ("priority", JStr "critical") ];
                      JObj
                        [ ("id", JStr "c4");
                          ("label", JStr "Switch payment processing to fallback provider");
                          ("completed", JBool false);
                          ("priority", JStr "critical") ];
                      JObj
                        [ ("id", JStr "c5");
                          ("label", JStr "Draft customer communication (use template: P1-cascade)");
                          ("completed", JBool false);
                          ("priority", JStr "high") ];
                      JObj
                        [ ("id", JStr "c6");
                          ("label", JStr "Disable non-essential background jobs");
                          ("completed", JBool false);
                          ("priority", JStr "high") ];
                      JObj
                        [ ("id", JStr "c7");
                          ("label", JStr "Scale up all services to max capacity");
                          ("completed", JBool false);
                          ("priority", JStr "high") ];
                      JObj
                        [ ("id", JStr "c8");
                          ("label", JStr "Engage database team for connection pool tuning");
                          ("completed", JBool false);
                          ("priority", JStr "medium") ] ]) ] |};
         {| id := "metric-1"; type := "MetricCard"; priority := 4; visibility := visible;
            visibilityCondition := None;
            props :=
              JObj
                [ ("title", JStr "Revenue Impact");
                  ("value", JStr "$142K");
                  ("change", JNum 38);
                  ("changeDirection", JStr "up");
                  ("unit", JStr "/hr");
                  ("status", JStr "critical") ] |};
         {| id := "metric-2"; type := "MetricCard"; priority := 4; visibility := visible;
            visibilityCondition := None;
            props :=
              JObj
                [ ("title", JStr "Affected Services");
                  ("value", JStr "4/12");
                  ("status", JStr "critical") ] |};
         {| id := "metric-3"; type := "MetricCard"; priority := 4; visibility := visible;
            visibilityCondition := None;
            props :=
              JObj
                [ ("title", JStr "Customer Tickets");
                  ("value", JStr "340");
                  ("change", JNum 900);
                  ("changeDirection", JStr "up");
                  ("status", JStr "critical") ] |};
         {| id := "metric-4"; type := "MetricCard"; priority := 4; visibility := visible;
            visibilityCondition := None;
            props :=
              JObj
                [ ("title", JStr "MTTR Estimate");
                  ("value", JStr "45");
                  ("unit", JStr "min");
                  ("status", JStr "warning") ] |};
         {| id := "recs-1"; type := "RecommendationStrip"; priority := 5; visibility := visible;
            visibilityCondition := None;
            props :=
              JObj
                [ ("recommendations", JArr
                    [ JObj
                        [ ("id", JStr "r1");
                          ("title", JStr "Activate Fallback Payment");
                          ("description", JStr "Switch to Stripe fallback to restore payment processing immediately");
                          ("urgency", JStr "critical");
                          ("action", JStr "Execute Failover") ];
                      JObj
                        [ ("id", JStr "r2");
                          ("title", JStr "Global Rate Limit");
                          ("description", JStr "Apply 50% rate limit to stop cascade. Will affect all users but stabilize systems");
                          ("urgency", JStr "critical");
                          ("action", JStr "Apply Limit") ];
                      JObj
                        [ ("id", JStr "r3");
                          ("title", JStr "Rollback v3.14.2");
                          ("description", JStr "Deployment correlates with timeline — rollback to v3.14.1 as precaution");
                          ("urgency", JStr "high");
                          ("action", JStr "Start Rollback") ];
                      JObj
                        [ ("id", JStr "r4");
                          ("title", JStr "Customer Comms");
                          ("description", JStr "Send proactive email to enterprise customers within 10 minutes");
                          ("urgency", JStr "high");
                          ("action", JStr "Draft Message") ] ]) ] |};
         {| id := "timeline-1"; type := "TimelineView"; priority := 6; visibility := visible;
            visibilityCondition := None;
            props :=
              JObj
                [ ("title", JStr "Escalation Timeline");
                  ("events", JArr
                    [ JObj
                        [ ("id", JStr "e1");
                          ("timestamp", JStr "14:23 UTC");
                          ("title", JStr "Initial incident: Auth service errors");
                          ("description", JStr "Login failure rate spiked to 47%");
                          ("severity", JStr "critical") ];
                      JObj
                        [ ("id", JStr "e2");
                          ("timestamp", JStr "14:45 UTC");
                          ("title", JStr "Retry storm detected");
                          ("description", JStr "API gateway under 3.2x load from client retries");
                          ("severity", JStr "warning") ];
                      JObj
                        [ ("id", JStr "e3");
                          ("timestamp", JStr "14:55 UTC");
                          ("title", JStr "Cascade begins");
                          ("description", JStr "Payment service starts experiencing upstream timeouts");
                          ("severity", JStr "critical") ];
                      JObj
                        [ ("id", JStr "e4");
                          ("timestamp", JStr "15:00 UTC");
                          ("title", JStr "Payment degradation confirmed");
                          ("description", JStr "Transaction success rate dropped to 62%");
                          ("severity", JStr "critical") ];
                      JObj
                        [ ("id", JStr "e5");
                          ("timestamp", JStr "15:02 UTC");
                          ("title", JStr "P1 Escalation triggered");
                          ("description", JStr "Multiple systems affected — escalation protocol activated");
                          ("severity", JStr "critical") ] ]) ] |} ] |}.

Definition explorationResponse (confidence : float) : UISchema :=
  {| layout := "grid";
     confidence := Js.Math_min confidence 0.65;
     explanation :=
       "Exploration mode. Broad overview with charts, metrics, and insights to help guide further inquiry. Grid layout provides multiple entry points for deeper investigation.";
     reasoning :=
       {| intent := exploration;
          urgency := low;
          uncertaintyAreas :=
            [ "User intent is general — showing broad surface area";
              "May need follow-up questions to narrow focus" ];
          hiddenComponents :=
            [ {| hidden_type := "ActionChecklist"; reason := "No specific actions identified yet" |};
              {| hidden_type := "AlertPanel"; reason := "No triggered alerts to display" |} ] |};
     components :=
       [ {| id := "banner-1"; type := "StatusBanner"; priority := 1; visibility := visible;
            visibilityCondition := None;
            props :=
              JObj
                [ ("status", JStr "healthy");
                  ("title", JStr "Exploration Mode");
                  ("message", JStr "Showing broad system overview. Describe your concern more specifically for a focused analysis.");
                  ("timestamp", JStr "Now") ] |};
         {| id := "metric-1"; type := "MetricCard"; priority := 2; visibility := visible;
            visibilityCondition := None;
            props :=
              JObj
                [ ("title", JStr "Total Requests");
                  ("value", JStr "1.2M");
                  ("change", JNum 8);
                  ("changeDirection", JStr "up");
                  ("status", JStr "normal") ] |};
         {| id := "metric-2"; type := "MetricCard"; priority := 2; visibility := visible;
            visibilityCondition := None;
            props :=
              JObj
                [ ("title", JStr "Error Rate");
                  ("value", JStr "0.32");
                  ("unit", JStr "%");
                  ("status", JStr "normal") ] |};
         {| id := "metric-3"; type := "MetricCard"; priority := 2; visibility := visible;
            visibilityCondition := None;
            props :=
              JObj
                [ ("title", JStr "P99 Latency");
                  ("value", JStr "230");
                  ("unit", JStr "ms");
                  ("change", JNum 5);
                  ("changeDirection", JStr "up");
                  ("status", JStr "normal") ] |};
         {| id := "metric-4"; type := "MetricCard"; priority := 2; visibility := visible;
            visibilityCondition := None;
            props :=
              JObj
                [ ("title", JStr "Active Services");
                  ("value", JStr "31/31");
                  ("status", JStr "normal") ] |};
         {| id := "chart-1"; type := "ChartView"; priority := 3; visibility := visible;
            visibilityCondition := None;
            props :=
              JObj
                [ ("title", JStr "Request Volume by Service");
                  ("chartType", JStr "bar");
                  ("color", JStr "#3b82f6");
                  ("data", JArr
                    [ JObj [("label", JStr "API"); ("value", JNum 420)];
                      JObj [("label", JStr "Auth"); ("value", JNum 280)];
                      JObj [("label", JStr "Payment"); ("value", JNum 190)];
                      JObj [("label", JStr "Search"); ("value", JNum 310)];
                      JObj [("label", JStr "CDN"); ("value", JNum 580)] ]) ] |};
         {| id := "insights-1"; type := "InsightSummary"; priority := 4; visibility := visible;
            visibilityCondition := None;
            props :=
              JObj
                [ ("title", JStr "System Observations");
                  ("insights", JArr
                    [ JObj
                        [ ("id", JStr "i1");
                          ("text", JStr "All services within normal operating parameters");
                          ("confidence", JNum 0.91);
                          ("category", JStr "Health") ];
                      JObj
                        [ ("id", JStr "i2");
                          ("text", JStr "CDN serving highest volume — expected for current time of day");
                          ("confidence", JNum 0.88);
                          ("category", JStr "Traffic") ];
                      JObj
                        [ ("id", JStr "i3");
                          ("text", JStr "No anomalies detected in the last 4 hours");
                          ("confidence", JNum 0.85);
                          ("category", JStr "Anomaly") ] ]) ] |};
         {| id := "geo-1"; type := "GeoMap"; priority := 5; visibility := visible;
            visibilityCondition := None;
            props :=
              JObj
                [ ("title", JStr "Regional Status");
                  ("points", JArr
                    [ JObj
                        [ ("id", JStr "g1");
                          ("label", JStr "US-East");
                          ("x", JNum 28);
                          ("y", JNum 38);
                          ("status", JStr "normal") ];
                      JObj
                        [ ("id", JStr "g2");
                          ("label", JStr "US-West");
                          ("x", JNum 15);
                          ("y", JNum 40);
                          ("status", JStr "normal") ];
                      JObj
                        [ ("id", JStr "g3");
                          ("label", JStr "EU-West");
                          ("x", JNum 48);
                          ("y", JNum 30);
                          ("status", JStr "normal") ];
                      JObj
                        [ ("id", JStr "g4");
                          ("label", JStr "AP-South");
                          ("x", JNum 72);
                          ("y", JNum 55);
                          ("status", JStr "normal") ];
                      JObj
                        [ ("id", JStr "g5");
                          ("label", JStr "AP-East");
                          ("x", JNum 82);
                          ("y", JNum 40);
                          ("status", JStr "normal") ] ]) ] |} ] |}.

(** The [switch] compares the run-time string; [_urgency] is accepted
    and not read. *)
Definition getResponseForIntent (intent : string) (_urgency : UrgencyLevel)
  (confidence : float) : UISchema :=
  if String.eqb intent "incident" then incidentResponse confidence
  else if String.eqb intent "overview" then overviewResponse confidence
  else if String.eqb intent "investigation" then investigationResponse confidence
  else if String.eqb intent "escalation" then escalationResponse confidence
  else explorationResponse confidence.

End Responses.

(** [analyzeSituation] after its simulated delay, which carries no
    data. *)
Definition analyzeSituation (input : Js.js_string) : UISchema :=
  let analysis := Analyzer.analyze input in
  Responses.getResponseForIntent
    (intent_name (Analyzer.intent analysis))
    (Analyzer.urgency analysis)
    (Analyzer.confidence analysis).

(* ================================================================== *)
(** * The component registry ([src/components/registry/index.ts]) *)

Module Registry.
#[local] Open Scope string_scope.

(** The ten widget implementations. *)
Inductive Widget : Type :=
| MetricCard | AlertPanel | TimelineView | LogViewer | ChartView
| ActionChecklist | InsightSummary | RecommendationStrip | GeoMap
| StatusBanner.

Definition componentRegistry : gmap string Widget :=
  list_to_map
    [ ("MetricCard", MetricCard);
      ("AlertPanel", AlertPanel);
      ("TimelineView", TimelineView);
      ("LogViewer", LogViewer);
      ("ChartView", ChartView);
      ("ActionChecklist", ActionChecklist);
      ("InsightSummary", InsightSummary);
      ("RecommendationStrip", RecommendationStrip);
      ("GeoMap", GeoMap);
      ("StatusBanner", StatusBanner) ].

(** [componentRegistry[type] ?? null]; [None] is [null]. *)
Definition resolveComponent (type : string) : option (Js.member Widget) :=
  Js.get componentRegistry type.

End Registry.

(* ================================================================== *)
(** * The composition engine ([src/components/composition/]) *)

Module Composition.
Import Registry.
#[local] Open Scope string_scope.
#[local] Open Scope Z_scope.

(** One placement cell: the [div] a layout wraps around a widget.
    [animationDelay] is the number of milliseconds; [element] and
    [element_props] are the widget element inside the cell. *)
Record cell : Type := {
  key : string;
  className : string;
  animationDelay : Z;
  element : Js.member Widget;
  element_props : json;
}.

(** What a layout returns.  [VNull] stands for [null] and [false],
    which render nothing. *)
Inductive vnode : Type :=
| VNull
| VCell (c : cell)
| VDiv (class : string) (children : list vnode).

(** The cells of a tree, in document order. *)
Fixpoint cells (v : vnode) : list cell :=
  match v with
  | VNull => []
  | VCell c => [c]
  | VDiv _ children => flat_map cells children
  end.

Definition isFullWidth (spec : UIComponentSpec) : bool :=
  String.eqb (type spec) "StatusBanner"
  || String.eqb (type spec) "RecommendationStrip".

Definition isCompact (spec : UIComponentSpec) : bool :=
  String.eqb (type spec) "MetricCard".

(** The body shared by the [map] callbacks of the four layouts. *)
Definition render_cell (class : UIComponentSpec -> string)
  (spec : UIComponentSpec) : vnode :=
  match resolveComponent (type spec) with
  | None => VNull
  | Some Component =>
      VCell {| key := id spec;
               className := class spec;
               animationDelay := priority spec * 60;
               element := Component;
               element_props := props spec |}
  end.

Definition GridLayout (components : list UIComponentSpec) : vnode :=
  VDiv "sentinel-layout sentinel-layout--grid"
    (List.map
       (render_cell (fun spec =>
          "sentinel-layout__cell " +:+
          (if isFullWidth spec then "sentinel-layout__cell--full"
           else if isCompact spec then "sentinel-layout__cell--quarter"
           else "sentinel-layout__cell--half")))
       components).

Definition StackLayout (components : list UIComponentSpec) : vnode :=
  VDiv "sentinel-layout sentinel-layout--stack"
    (List.map
       (render_cell (fun _ =>
          "sentinel-layout__cell sentinel-layout__cell--full"))
       components).

(** [Math.ceil(n / 2)] for a length [n]. *)
Definition ceil_half (n : nat) : nat := Nat.div (n + 1) 2.

Definition SplitLayout (components : list UIComponentSpec) : vnode :=
  let mid := ceil_half (length components) in
  let left := firstn mid components in
  let right := skipn mid components in
  let renderColumn (items : list UIComponentSpec) :=
    List.map
      (render_cell (fun spec =>
         "sentinel-layout__cell " +:+
         (if isFullWidth spec then "sentinel-layout__cell--full"
          else "sentinel-layout__cell--full")))
      items in
  VDiv "sentinel-layout sentinel-layout--split"
    [ VDiv "sentinel-layout__split-left" (renderColumn left);
      VDiv "sentinel-layout__split-right" (renderColumn right) ].

Definition overlay_base (components : list UIComponentSpec) : vnode :=
  let base := List.filter (fun c => 2 <? priority c) components in
  VDiv "sentinel-layout__overlay-base"
    (List.map
       (render_cell (fun _ =>
          "sentinel-layout__cell sentinel-layout__cell--half"))
       base).

Definition overlay_top (components : list UIComponentSpec) : vnode :=
  let overlays := List.filter (fun c => priority c <=? 2) components in
  if (0 <? length overlays)%nat then
    VDiv "sentinel-layout__overlay-top"
      (List.map
         (render_cell (fun _ =>
            "sentinel-layout__cell sentinel-layout__cell--full sentinel-layout__cell--overlay"))
         overlays)
  else VNull.

Definition OverlayLayout (components : list UIComponentSpec) : vnode :=
  VDiv "sentinel-layout sentinel-layout--overlay"
    [ overlay_base components; overlay_top components ].

Definition layoutMap : gmap string (list UIComponentSpec -> vnode) :=
  list_to_map
    [ ("grid", GridLayout);
      ("stack", StackLayout);
      ("split", SplitLayout);
      ("overlay", OverlayLayout) ].

(** The element [<LayoutComponent components={sorted} />] once React
    has evaluated it: the tree a layout of this repository returns, or,
    when the lookup produced a member of [Object.prototype], an element
    of that foreign type, which no layout of the repository renders. *)
Inductive arrangement : Type :=
| Arranged (tree : vnode)
| ForeignElement (name : string) (components : list UIComponentSpec).

(** The confidence strip and the arrangement below it: the width of
    the bar in percent, its colour, and the percentage its label
    shows. *)
Record composition : Type := {
  data_layout : string;
  bar_width : float;
  bar_color : string;
  label_percent : float;
  content : arrangement;
}.

Definition is_visible (c : UIComponentSpec) : bool :=
  match visibility c with
  | visible => true
  | _ => false
  end.

Definition by_priority (a b : UIComponentSpec) : Z :=
  priority a - priority b.

Definition SentinelComposition (schema : UISchema) : composition :=
  let visibleComponents := List.filter is_visible (components schema) in
  let sorted := Js.sort by_priority visibleComponents in
  let LayoutComponent :=
    default (Js.Declared GridLayout) (Js.get layoutMap (layout schema)) in
  let confidenceColor :=
    if PrimFloat.leb 0.8 (confidence schema) then "var(--color-accent-green)"
    else if PrimFloat.leb 0.5 (confidence schema) then "var(--color-accent-amber)"
    else "var(--color-accent-red)" in
  {| data_layout := layout schema;
     bar_width := (confidence schema * 100)%float;
     bar_color := confidenceColor;
     label_percent := Js.Math_round (confidence schema * 100)%float;
     content :=
       match LayoutComponent with
       | Js.Declared Layout => Arranged (Layout sorted)
       | Js.Builtin name => ForeignElement name sorted
       end |}.

End Composition.

(* ================================================================== *)
(** * Vocabulary of the design document *)

Module Spec.
Import Js.
#[local] Open Scope string_scope.

(** The number of patterns of a list that match the input. *)
Definition matching (patterns : list regex) (input : js_string) : nat :=
  length (List.filter (fun pattern => test pattern input) patterns).

(** The score of an intent category. *)
Definition score (input : js_string) (i : IntentType) : nat :=
  matching (Analyzer.intent_patterns i) input.

(** Declaration order of the intent categories in the pattern table. *)
Definition declaration_order : list IntentType :=
  [incident; overview; investigation; escalation; exploration].

Definition position (i : IntentType) : nat :=
  match i with
  | incident => 0
  | overview => 1
  | investigation => 2
  | escalation => 3
  | exploration => 4
  end.

(** Does some signal of an urgency level match. *)
Definition signalled (input : js_string) (level : UrgencyLevel) : bool :=
  existsb (fun pattern => test pattern input) (Analyzer.urgency_signals level).

(** Test order of the urgency levels. *)
Definition rank (level : UrgencyLevel) : nat :=
  match level with
  | critical => 0
  | high => 1
  | medium => 2
  | low => 3
  end.

(** The analyzer's confidence as a function of the winning intent and
    its number of matching patterns. *)
Definition confidence_of (i : IntentType) (matchCount : Z) : float :=
  Math_min
    ((match i with
      | investigation => 0.45
      | exploration => 0.6
      | _ => 0.7
      end) + Math_min (number_of_Z matchCount * 0.08) 0.25)
    0.95.

(** Adding [m] to the score of [intent], as [m] increments do. *)
Fixpoint add_to (intent : IntentType) (m : Z)
  (scores : list (IntentType * Z)) : list (IntentType * Z) :=
  match scores with
  | [] => []
  | (k, n) :: rest =>
      if IntentType_eqb k intent then (k, (n + m)%Z) :: rest
      else (k, n) :: add_to intent m rest
  end.

(** A matcher position with every unit canonicalized. *)
Definition fold_state (st : state) : state :=
  (option_map canonicalize (fst st), List.map canonicalize (snd st)).

(** Ascending order of a key. *)
Definition ascending {A : Type} (key : A -> Z) (a b : A) : Prop :=
  (key a <= key b)%Z.

(** The five intent names and the four layout names. *)
Definition intent_names : list string :=
  ["incident"; "overview"; "investigation"; "escalation"; "exploration"].

Definition layout_names : list string :=
  ["grid"; "stack"; "split"; "overlay"].

(** A type is registered when it is a key of the registry. *)
Definition registered (t : string) : bool :=
  match Registry.componentRegistry !! t with
  | Some _ => true
  | None => false
  end.

(** The lookup the layouts perform yields a component. *)
Definition resolves (spec : UIComponentSpec) : bool :=
  match Registry.resolveComponent (type spec) with
  | Some _ => true
  | None => false
  end.

Definition has_priority (p : Z) (spec : UIComponentSpec) : bool :=
  (priority spec =? p)%Z.

(** Cell [c] is the placement of entry [spec]. *)
Definition renders (spec : UIComponentSpec) (c : Composition.cell) : Prop :=
  Composition.key c = id spec
  /\ Composition.animationDelay c = (priority spec * 60)%Z
  /\ Registry.resolveComponent (type spec) = Some (Composition.element c)
  /\ Composition.element_props c = props spec.

Definition renders_as (class : UIComponentSpec -> string)
  (spec : UIComponentSpec) (c : Composition.cell) : Prop :=
  renders spec c /\ Composition.className c = class spec.

(** Entry [spec] has a cell among [cs]. *)
Definition placed (spec : UIComponentSpec) (cs : list Composition.cell)
  : Prop :=
  exists c, In c cs /\ Composition.key c = id spec.

(** The width classes of a cell. *)
Definition full_width : string :=
  "sentinel-layout__cell sentinel-layout__cell--full".
Definition half_width : string :=
  "sentinel-layout__cell sentinel-layout__cell--half".
Definition quarter_width : string :=
  "sentinel-layout__cell sentinel-layout__cell--quarter".
Definition full_width_overlay : string :=
  "sentinel-layout__cell sentinel-layout__cell--full sentinel-layout__cell--overlay".

(** The document invariants of the data model that a producer must
    keep: confidence within [0, 1] and pairwise distinct ids. *)
Definition confidence_in_range (schema : UISchema) : bool :=
  PrimFloat.leb 0 (confidence schema) && PrimFloat.leb (confidence schema) 1.

Definition well_formed (schema : UISchema) : Prop :=
  confidence_in_range schema = true
  /\ NoDup (List.map id (components schema)).

(** Sample entries and documents. *)
Definition entry (i t : string) (p : Z) (v : VisibilityState)
  : UIComponentSpec :=
  {| id := i; type := t; props := JObj []; priority := p;
     visibility := v; visibilityCondition := None |}.

Definition document (l : string) (c : float)
  (entries : list UIComponentSpec) : UISchema :=
  {| layout := l; components := entries; confidence := c;
     explanation := "";
     reasoning := {| intent := exploration; urgency := low;
                     uncertaintyAreas := []; hiddenComponents := [] |} |}.

(** What the engine hands to the layout. *)
Definition sorted_visible_entries (schema : UISchema)
  : list UIComponentSpec :=
  Js.sort Composition.by_priority
    (List.filter Composition.is_visible (components schema)).

(** The overlay property as the design document words it: every visible
    entry has a cell in the layer of its priority. *)
Definition overlay_places_every_entry (schema : UISchema) : Prop :=
  forall spec,
    In spec (components schema) -> visibility spec = visible ->
    ((priority spec <= 2)%Z ->
     placed spec
       (Composition.cells
          (Composition.overlay_top (sorted_visible_entries schema))))
    /\ ((2 < priority spec)%Z ->
        placed spec
          (Composition.cells
             (Composition.overlay_base (sorted_visible_entries schema)))).

(** The validation property as the design document words it: a
    malformed document is not rendered as an arrangement. *)
Definition surfaces_validation_failure (schema : UISchema) : Prop :=
  ~ well_formed schema ->
  forall tree,
    Composition.content (Composition.SentinelComposition schema)
    <> Composition.Arranged tree.

End Spec.

(* ================================================================== *)
(** * The input shell ([src/components/shell/SituationInput.tsx]) *)

Module SituationInput.
Import Js.

(** [String.prototype.trim] removes the WhiteSpace and LineTerminator
    units, the units of [\s], from both ends. *)
Fixpoint trimStart (s : js_string) : js_string :=
  match s with
  | [] => []
  | c :: rest => if is_space c then trimStart rest else s
  end.

Definition trim (s : js_string) : js_string :=
  rev (trimStart (rev (trimStart s))).

(** [handleSubmit] on the component state [value], [isLoading]: the
    text passed to [onSubmit], if any, and the next [value]. *)
Definition handleSubmit (value : js_string) (isLoading : bool)
  : option js_string * js_string :=
  match trim value with
  | [] => (None, value)
  | _ :: _ =>
      if negb isLoading then (Some (trim value), []) else (None, value)
  end.

End SituationInput.

(* ================================================================== *)
(** * The checklist widget ([src/components/sentinel/ActionChecklist.tsx]) *)

Module ActionChecklist.

Record ChecklistItem : Type := {
  id : string;
  label : string;
  completed : bool;
  priority : string;
}.

(** The initial [checkedIds]: the set of the ids of the completed
    items. *)
Definition initialChecked (items : list ChecklistItem) : gset string :=
  list_to_set (List.map id (List.filter completed items)).

Definition toggle (i : string) (prev : gset string) : gset string :=
  if decide (i ∈ prev) then prev ∖ {[i]} else prev ∪ {[i]}.

(** The header shows [completed]/[total]. *)
Definition completedCount (checkedIds : gset string) : nat :=
  size checkedIds.

Definition total (items : list ChecklistItem) : nat := length items.

(** The state after the user has clicked the checkboxes of the items
    at the given positions, one after the other; a position outside the
    list has no checkbox. *)
Fixpoint clicks (items : list ChecklistItem) (positions : list nat)
  (checkedIds : gset string) : gset string :=
  match positions with
  | [] => checkedIds
  | n :: rest =>
      match nth_error items n with
      | Some item => clicks items rest (toggle (id item) checkedIds)
      | None => clicks items rest checkedIds
      end
  end.

End ActionChecklist.

(* ================================================================== *)
(** * The explainability panel ([src/components/shell/ExplainabilityPanel.tsx]) *)

Module ExplainabilityPanel.
#[local] Open Scope string_scope.

Definition confidenceLabel (confidence : float) : string :=
  if PrimFloat.leb 0.8 confidence then "High"
  else if PrimFloat.leb 0.5 confidence then "Medium"
  else "Low".

(** The entries listed under "Shown Components". *)
Definition shownComponents (schema : UISchema) : list UIComponentSpec :=
  Js.sort Composition.by_priority
    (List.filter Composition.is_visible (components schema)).

End ExplainabilityPanel.

(* ================================================================== *)
(** * Further vocabulary *)

Module Terms.
Import Js.

(** ASCII letters and digits. *)
Definition is_alnum (c : code_unit) : bool :=
  ((48 <=? c) && (c <=? 57) || (65 <=? c) && (c <=? 90)
   || (97 <=? c) && (c <=? 122))%N.

(** Every match of the pattern consumes a letter or a digit. *)
Fixpoint needs_alnum (r : regex) : bool :=
  match r with
  | RChar a => is_alnum (N_of_ascii a)
  | RSeq r1 r2 => needs_alnum r1 || needs_alnum r2
  | RAlt r1 r2 => needs_alnum r1 && needs_alnum r2
  | RPlus r1 => needs_alnum r1
  | _ => false
  end.

Definition all_patterns : list regex :=
  flat_map snd Analyzer.INTENT_PATTERNS
  ++ flat_map snd Analyzer.URGENCY_SIGNALS.

(** The cells of the [i]-th child of a tree. *)
Definition child_cells (i : nat) (v : Composition.vnode)
  : list Composition.cell :=
  match v with
  | Composition.VDiv _ children =>
      Composition.cells (nth i children Composition.VNull)
  | _ => []
  end.

(** Checks on a document, as booleans. *)
Fixpoint distinct (l : list string) : bool :=
  match l with
  | [] => true
  | x :: rest => negb (existsb (String.eqb x) rest) && distinct rest
  end.

Fixpoint nondecreasing (l : list Z) : bool :=
  match l with
  | x :: ((y :: _) as rest) => (x <=? y)%Z && nondecreasing rest
  | _ => true
  end.

Definition template_ok (schema : UISchema) : bool :=
  distinct (List.map id (components schema))
  && forallb Composition.is_visible (components schema)
  && forallb (fun spec => Spec.registered (type spec)) (components schema)
  && nondecreasing (List.map priority (components schema))
  && existsb (String.eqb (layout schema)) ["grid"; "stack"; "split"]%string
  && forallb (fun h => Spec.registered (hidden_type h))
       (hiddenComponents (reasoning schema))
  && forallb
       (fun h =>
          negb (existsb (fun spec => String.eqb (type spec) (hidden_type h))
                  (components schema)))
       (hiddenComponents (reasoning schema)).

End Terms.

(* ================================================================== *)
(** * Facts about the JavaScript layer *)

Section SortFacts.
Context {A : Type} (key : A -> Z) (cmp : A -> A -> Z).
Hypothesis cmp_key : forall a b, cmp a b = (key a - key b)%Z.

Lemma insert_stable_perm (x : A) (l : list A) :
  Permutation (Js.insert_stable cmp x l) (x :: l).
Proof.
  induction l as [|y l IH]; simpl; [reflexivity|].
  destruct (0 <? cmp x y)%Z; [|reflexivity].
  rewrite IH. apply perm_swap.
Qed.

Lemma sort_perm (l : list A) : Permutation (Js.sort cmp l) l.
Proof.
  induction l as [|x l IH]; simpl; [reflexivity|].
  rewrite insert_stable_perm. now constructor.
Qed.

Lemma insert_stable_sorted (x : A) (l : list A) :
  StronglySorted (Spec.ascending key) l ->
  StronglySorted (Spec.ascending key) (Js.insert_stable cmp x l).
Proof using cmp_key.
  induction 1 as [|y l Hl IH Hy]; simpl.
  - repeat constructor.
  - rewrite cmp_key. destruct (Z.ltb_spec 0 (key x - key y)) as [Hlt|Hge].
    + constructor; [exact IH|].
      rewrite (insert_stable_perm x l). constructor; [|exact Hy].
      unfold Spec.ascending. lia.
    + constructor; [now constructor|].
      constructor; [unfold Spec.ascending; lia|].
      eapply List.Forall_impl; [|exact Hy].
      unfold Spec.ascending. intros; lia.
Qed.

Lemma sort_sorted (l : list A) : StronglySorted (Spec.ascending key) (Js.sort cmp l).
Proof using cmp_key.
  induction l as [|x l IH]; simpl; [constructor|].
  now apply insert_stable_sorted.
Qed.

(** Stability: a filter that selects entries of one key sees them in
    their original order. *)
Lemma insert_stable_filter (f : A -> bool) (x : A) (l : list A) :
  (forall a b, f a = true -> f b = true -> key a = key b) ->
  List.filter f (Js.insert_stable cmp x l) = List.filter f (x :: l).
Proof using cmp_key.
  intros Hf. induction l as [|y l IH]; [reflexivity|].
  cbn [Js.insert_stable]. rewrite cmp_key.
  destruct (Z.ltb_spec 0 (key x - key y)) as [Hlt|Hge]; [|reflexivity].
  cbn [List.filter] in *. rewrite IH.
  destruct (f x) eqn:Hx, (f y) eqn:Hy; try reflexivity.
  specialize (Hf x y Hx Hy). lia.
Qed.

Lemma sort_stable (f : A -> bool) (l : list A) :
  (forall a b, f a = true -> f b = true -> key a = key b) ->
  List.filter f (Js.sort cmp l) = List.filter f l.
Proof using cmp_key.
  intros Hf. induction l as [|x l IH]; [reflexivity|].
  cbn [Js.sort]. rewrite insert_stable_filter by exact Hf.
  cbn [List.filter]. now rewrite IH.
Qed.

(** The head of the sorted array is the first entry of least key. *)
Lemma sort_head (l : list A) (x : A) (rest : list A) :
  Js.sort cmp l = x :: rest ->
  exists before after,
    l = before ++ x :: after
    /\ Forall (fun y => key x < key y)%Z before
    /\ Forall (fun y => key x <= key y)%Z after.
Proof using cmp_key.
  revert x rest. induction l as [|a l IH]; intros x rest; [discriminate|].
  cbn [Js.sort]. destruct (Js.sort cmp l) as [|y t] eqn:Hs.
  - assert (l = []) as ->.
    { apply Permutation.Permutation_nil. rewrite <- Hs. apply sort_perm. }
    cbn. intros [= <- <-]. exists [], []. repeat constructor.
  - destruct (IH y t eq_refl) as (before & after & -> & Hb & Ha).
    cbn [Js.insert_stable]. rewrite cmp_key.
    destruct (Z.ltb_spec 0 (key a - key y)) as [Hlt|Hge]; intros [= <- <-].
    + exists (a :: before), after. repeat split; [|exact Ha].
      constructor; [lia|exact Hb].
    + exists [], (before ++ y :: after). repeat split; [constructor|].
      apply Forall_app. split.
      * eapply List.Forall_impl; [|exact Hb]. cbn; intros; lia.
      * constructor; [lia|]. eapply List.Forall_impl; [|exact Ha]. cbn; intros; lia.
Qed.
End SortFacts.

Section CaseFolding.
Import Js.

Ltac split_comparisons :=
  repeat (match goal with
          | |- context [(?a <=? ?b)%N] => destruct (N.leb_spec a b)
          | |- context [(?a =? ?b)%N] => destruct (N.eqb_spec a b)
          end; try lia; cbn [andb orb]);
  try reflexivity; try lia.

Ltac lower_case E :=
  let H1 := fresh in
  let H2 := fresh in
  apply andb_true_iff in E; destruct E as [H1 H2];
  apply N.leb_le in H1; apply N.leb_le in H2.

Lemma canonicalize_idempotent c :
  canonicalize (canonicalize c) = canonicalize c.
Proof.
  unfold canonicalize.
  destruct ((97 <=? c) && (c <=? 122))%N eqn:E; [|now rewrite E].
  lower_case E. split_comparisons.
Qed.

Lemma is_space_canonicalize c : is_space (canonicalize c) = is_space c.
Proof.
  unfold canonicalize.
  destruct ((97 <=? c) && (c <=? 122))%N eqn:E; [|reflexivity].
  lower_case E. unfold is_space. split_comparisons.
Qed.

Lemma is_word_canonicalize c : is_word (canonicalize c) = is_word c.
Proof.
  unfold canonicalize.
  destruct ((97 <=? c) && (c <=? 122))%N eqn:E; [|reflexivity].
  lower_case E. unfold is_word. split_comparisons.
Qed.

Lemma same_letter_canonicalize a c :
  same_letter a (canonicalize c) = same_letter a c.
Proof. unfold same_letter. now rewrite canonicalize_idempotent. Qed.

Lemma consume_fold (p : code_unit -> bool) st :
  (forall c, p (canonicalize c) = p c) ->
  consume p (Spec.fold_state st) = List.map Spec.fold_state (consume p st).
Proof.
  intros Hp. destruct st as [prev [|c rest]]; [reflexivity|].
  unfold consume. cbn. rewrite Hp. now destruct (p c).
Qed.

Lemma at_boundary_fold st : at_boundary (Spec.fold_state st) = at_boundary st.
Proof.
  destruct st as [[p|] [|c rest]]; unfold at_boundary; cbn;
    now rewrite ?is_word_canonicalize.
Qed.

Lemma fold_state_length st :
  length (snd (Spec.fold_state st)) = length (snd st).
Proof. apply length_map. Qed.

Lemma flat_map_fold (f g : state -> list state) l :
  (forall st, f (Spec.fold_state st) = List.map Spec.fold_state (g st)) ->
  flat_map f (List.map Spec.fold_state l) = List.map Spec.fold_state (flat_map g l).
Proof.
  intros H. induction l as [|st l IH]; [reflexivity|].
  cbn. now rewrite H, IH, List.map_app.
Qed.

Lemma filter_map_commute {A B : Type} (f : A -> B) (p : B -> bool)
  (q : A -> bool) (l : list A) :
  (forall x, p (f x) = q x) ->
  List.filter p (List.map f l) = List.map f (List.filter q l).
Proof.
  intros H. induction l as [|x l IH]; [reflexivity|].
  cbn [List.map List.filter]. rewrite H, IH. now destruct (q x).
Qed.

Lemma iterate_fold fuel (f g : state -> list state) st :
  (forall st, f (Spec.fold_state st) = List.map Spec.fold_state (g st)) ->
  iterate fuel f (Spec.fold_state st) = List.map Spec.fold_state (iterate fuel g st).
Proof.
  intros H. revert st. induction fuel as [|n IH]; intros st; [reflexivity|].
  cbn [iterate List.map]. f_equal. rewrite H.
  rewrite <- (flat_map_fold (iterate n f) (iterate n g)) by exact IH.
  f_equal. apply filter_map_commute.
  intros x. unfold Spec.fold_state. cbn [snd]. now rewrite !length_map.
Qed.

Lemma run_fold r st : run r (Spec.fold_state st) = List.map Spec.fold_state (run r st).
Proof.
  revert st. induction r; intros st; cbn [run].
  - reflexivity.
  - apply consume_fold, same_letter_canonicalize.
  - apply consume_fold, is_space_canonicalize.
  - rewrite at_boundary_fold. now destruct (at_boundary st).
  - apply consume_fold. intros c. induction items as [|x items IH]; [reflexivity|].
    cbn [existsb]. rewrite IH. f_equal.
    destruct x; cbn; [apply same_letter_canonicalize|apply is_space_canonicalize].
  - rewrite IHr1. now apply flat_map_fold.
  - now rewrite IHr1, IHr2, List.map_app.
  - now rewrite IHr, List.map_app.
  - rewrite IHr, fold_state_length.
    apply flat_map_fold. intros st'. now apply iterate_fold.
  - rewrite fold_state_length. now apply iterate_fold.
Qed.

Lemma head_fold {B : Type} (l : list state) (x y : B) :
  match List.map Spec.fold_state l with _ :: _ => x | [] => y end
  = match l with _ :: _ => x | [] => y end.
Proof. now destruct l. Qed.

Lemma search_fold r prev s :
  search r (option_map canonicalize prev) (List.map canonicalize s)
  = search r prev s.
Proof.
  revert prev. induction s as [|c rest IH]; intros prev.
  - cbn [search List.map].
    change (option_map canonicalize prev, [])
      with (Spec.fold_state (prev, [])).
    now rewrite run_fold, head_fold.
  - cbn [search List.map].
    change (option_map canonicalize prev,
            canonicalize c :: List.map canonicalize rest)
      with (Spec.fold_state (prev, c :: rest)).
    rewrite run_fold, head_fold.
    change (Some (canonicalize c)) with (option_map canonicalize (Some c)).
    now rewrite IH.
Qed.

(** Matching under the [i] flag ignores the case of ASCII letters. *)
Lemma test_case_insensitive r input :
  test r (List.map canonicalize input) = test r input.
Proof. apply (search_fold r None). Qed.
End CaseFolding.

(* ================================================================== *)
(** * The analyzer *)

Section AnalyzerFacts.
Import Js Analyzer Spec.
Variable input : js_string.

Lemma count_matches_from (patterns : list regex) (acc : Z) :
  fold_left
    (fun matchCount pattern =>
       if test pattern input then (matchCount + 1)%Z else matchCount)
    patterns acc
  = (acc + Z.of_nat (matching patterns input))%Z.
Proof.
  revert acc. induction patterns as [|p ps IH]; intros acc.
  - cbn. lia.
  - cbn [fold_left]. rewrite IH. unfold matching. cbn [List.filter].
    destruct (test p input); cbn [length]; lia.
Qed.

Lemma count_matches_matching (patterns : list regex) :
  count_matches patterns input = Z.of_nat (matching patterns input).
Proof. unfold count_matches. now rewrite count_matches_from. Qed.

Lemma add_to_bump intent m scores :
  add_to intent m (bump intent scores) = add_to intent (m + 1) scores.
Proof.
  induction scores as [|[k n] rest IH]; [reflexivity|].
  cbn [bump add_to]. destruct (IntentType_eqb k intent) eqn:E.
  - cbn [add_to]. rewrite E. f_equal. f_equal. lia.
  - cbn [add_to]. rewrite E. now rewrite IH.
Qed.

Lemma add_to_zero intent scores : add_to intent 0 scores = scores.
Proof.
  induction scores as [|[k n] rest IH]; [reflexivity|].
  cbn [add_to]. destruct (IntentType_eqb k intent).
  - now rewrite Z.add_0_r.
  - now rewrite IH.
Qed.

Lemma score_patterns_add_to intent patterns scores :
  score_patterns input intent patterns scores
  = add_to intent (Z.of_nat (matching patterns input)) scores.
Proof.
  unfold score_patterns. revert scores.
  induction patterns as [|p ps IH]; intros scores.
  - cbn. now rewrite add_to_zero.
  - cbn [fold_left]. rewrite IH. unfold matching. cbn [List.filter].
    destruct (test p input); [|reflexivity].
    rewrite add_to_bump. cbn [length]. f_equal. lia.
Qed.

Lemma score_all_scores :
  score_all input
  = List.map (fun i => (i, Z.of_nat (score input i))) declaration_order.
Proof.
  unfold score_all, INTENT_PATTERNS. cbn [fold_left fst snd].
  rewrite !score_patterns_add_to.
  unfold declaration_order, score, intent_patterns, INTENT_PATTERNS.
  cbn [lookup IntentType_eqb default List.map].
  cbn [add_to IntentType_eqb Z.add].
  reflexivity.
Qed.

Lemma score_le_13 (i : IntentType) : score input i <= 13.
Proof.
  unfold score, matching.
  etransitivity; [apply List.filter_length_le|].
  destruct i; vm_compute; lia.
Qed.

Lemma level_matches_existsb (patterns : list regex) :
  level_matches patterns input
  = existsb (fun pattern => test pattern input) patterns.
Proof.
  induction patterns as [|p ps IH]; [reflexivity|].
  cbn. now destruct (test p input).
Qed.
End AnalyzerFacts.

Section ClassifyIntent.
Import Js Analyzer Spec.
Variable input : js_string.

Lemma classifyIntent_first_max (i : IntentType) :
  0 < score input i ->
  (forall j, score input j <= score input i) ->
  (forall j, position j < position i -> score input j < score input i) ->
  classifyIntent input = i.
Proof.
  intros Hpos Hmax Hfirst. unfold classifyIntent.
  rewrite score_all_scores.
  destruct (Js.sort _ _) as [|[x n] rest] eqn:Hs.
  { apply (f_equal (@length _)) in Hs.
    rewrite (Permutation_length (sort_perm _ _)) in Hs. discriminate Hs. }
  apply (sort_head (fun kv => (- snd kv)%Z)) in Hs; [|intros; cbn; lia].
  destruct Hs as (before & after & Heq & Hb & Ha).
  pose proof (Hmax incident). pose proof (Hmax overview).
  pose proof (Hmax investigation). pose proof (Hmax escalation).
  pose proof (Hmax exploration).
  unfold declaration_order in Heq. cbn [List.map] in Heq.
  destruct before as [|b1 [|b2 [|b3 [|b4 [|b5 before]]]]];
    cbn [app] in Heq; injection Heq as <-; subst;
    repeat match goal with
           | H : Forall _ (_ :: _) |- _ =>
               apply List.Forall_cons_iff in H; cbn [snd] in H;
               destruct H as [? H]
           | H : _ = _ ++ _ :: _ |- _ =>
               apply (f_equal (@length _)) in H; rewrite length_app in H;
               cbn in H; lia
           end;
    pose proof (Hfirst incident) as Hf0; pose proof (Hfirst overview) as Hf1;
    pose proof (Hfirst investigation) as Hf2;
    pose proof (Hfirst escalation) as Hf3;
    destruct i; cbn [position] in Hf0, Hf1, Hf2, Hf3;
    match goal with
    | |- (if (0 <? ?n)%Z then _ else _) = _ =>
        destruct (Z.ltb_spec 0 n); try reflexivity; exfalso; lia
    end.
Qed.
End ClassifyIntent.

Section AnalyzerClaims.
Import Js Analyzer Spec.

Lemma score_case_insensitive (input : js_string) (i : IntentType) :
  score (List.map canonicalize input) i = score input i.
Proof.
  unfold score, matching. f_equal. apply List.filter_ext.
  intros pattern. apply test_case_insensitive.
Qed.

Lemma classifyIntent_no_match (input : js_string) :
  (forall i, score input i = 0) -> classifyIntent input = exploration.
Proof.
  intros Hzero. unfold classifyIntent. rewrite score_all_scores.
  destruct (Js.sort _ _) as [|[x n] rest] eqn:Hs; [reflexivity|].
  assert (In (x, n)
            (List.map (fun i => (i, Z.of_nat (score input i)))
               declaration_order)) as Hin.
  { eapply Permutation_in; [apply sort_perm|]. rewrite Hs. now left. }
  apply in_map_iff in Hin. destruct Hin as (i & Heq & _).
  injection Heq as <- <-. now rewrite Hzero.
Qed.

(** C1.  The score object holds, for each category, the number of its
    patterns that match the input, a number that does not depend on the
    case of the input's letters.  A category whose score is strictly
    above every other is returned; among categories sharing the
    greatest score, the first in the declaration order incident,
    overview, investigation, escalation, exploration is returned; when
    no pattern of any category matches, the result is exploration. *)
Theorem classifyIntent_spec (input : js_string) :
  score_all input
  = List.map (fun i => (i, Z.of_nat (score input i))) declaration_order
  /\ (forall i, score (List.map canonicalize input) i = score input i)
  /\ (forall i,
        (forall j, j <> i -> score input j < score input i) ->
        classifyIntent input = i)
  /\ (forall i,
        0 < score input i ->
        (forall j, score input j <= score input i) ->
        (forall j, position j < position i ->
                   score input j < score input i) ->
        classifyIntent input = i)
  /\ ((forall i, score input i = 0) -> classifyIntent input = exploration).
Proof.
  split; [apply score_all_scores|].
  split; [apply score_case_insensitive|].
  split; [|split; [apply classifyIntent_first_max
                  |apply classifyIntent_no_match]].
  intros i Hstrict. apply classifyIntent_first_max.
  - assert (exists j, j <> i) as [j Hj]
        by (destruct i; [exists incident|exists incident|exists overview
                        |exists incident|exists incident]; discriminate).
    specialize (Hstrict j Hj). lia.
  - intros j. destruct (IntentType_eqb j i) eqn:E.
    + destruct j, i; try discriminate E; lia.
    + apply Nat.lt_le_incl, Hstrict. intros ->. now destruct i.
  - intros j Hj. apply Hstrict. intros ->. lia.
Qed.

(** C2.  The levels are tried in the order critical, high, medium,
    low and the first one with a matching signal is returned; with no
    matching signal at any level the result is low. *)
Theorem classifyUrgency_first_match (input : js_string) :
  (forall level,
      signalled input level = true ->
      (forall earlier, rank earlier < rank level ->
                       signalled input earlier = false) ->
      classifyUrgency input = level)
  /\ ((forall level, signalled input level = false) ->
      classifyUrgency input = low).
Proof.
  unfold classifyUrgency, first_level, signalled.
  rewrite !level_matches_existsb. split.
  - intros level Hhit Hearlier.
    pose proof (Hearlier critical) as Hc. pose proof (Hearlier high) as Hh.
    pose proof (Hearlier medium) as Hm.
    unfold signalled in *.
    destruct level; cbn [rank] in Hc, Hh, Hm;
      rewrite ?Hc, ?Hh, ?Hm, ?Hhit by lia; reflexivity.
  - intros Hnone. now rewrite !Hnone.
Qed.

Lemma calculateConfidence_confidence_of i input :
  calculateConfidence i input = confidence_of i (Z.of_nat (score input i)).
Proof.
  unfold calculateConfidence. rewrite count_matches_matching.
  now destruct i.
Qed.

Lemma small_count (n : nat) :
  n <= 13 ->
  In (Z.of_nat n) [0; 1; 2; 3; 4; 5; 6; 7; 8; 9; 10; 11; 12; 13]%Z.
Proof.
  intros H. do 14 (destruct n as [|n]; [cbn; tauto|]). lia.
Qed.

(** C3.  The analyzer's confidence is
    [min(base + min(matchCount * 0.08, 0.25), 0.95)], [matchCount]
    being the number of the winning intent's own patterns that match
    and [base] being 0.45 for investigation, 0.60 for exploration and
    0.70 otherwise; it lies between 0 and 0.95. *)
Theorem analyze_confidence (input : js_string) :
  let result := analyze input in
  let matchCount := Z.of_nat (score input (Analyzer.intent result)) in
  let base :=
    match Analyzer.intent result with
    | investigation => 0.45
    | exploration => 0.6
    | _ => 0.7
    end%float in
  Analyzer.intent result = classifyIntent input
  /\ Analyzer.confidence result
     = Math_min (base + Math_min (number_of_Z matchCount * 0.08) 0.25) 0.95
  /\ PrimFloat.leb 0 (Analyzer.confidence result) = true
  /\ PrimFloat.leb (Analyzer.confidence result) 0.95 = true.
Proof.
  cbn [analyze Analyzer.intent Analyzer.confidence].
  split; [reflexivity|].
  rewrite calculateConfidence_confidence_of.
  split; [reflexivity|].
  pose proof (score_le_13 input (classifyIntent input)) as Hle.
  apply small_count in Hle.
  assert (forallb
            (fun i =>
               forallb
                 (fun m => PrimFloat.leb 0 (confidence_of i m)
                           && PrimFloat.leb (confidence_of i m) 0.95)
                 [0; 1; 2; 3; 4; 5; 6; 7; 8; 9; 10; 11; 12; 13]%Z)
            declaration_order = true) as Hall by (vm_compute; reflexivity).
  rewrite forallb_forall in Hall.
  assert (In (classifyIntent input) declaration_order) as Hi
      by (destruct (classifyIntent input); cbn; tauto).
  specialize (Hall _ Hi). rewrite forallb_forall in Hall.
  specialize (Hall _ Hle). now apply andb_true_iff in Hall.
Qed.
End AnalyzerClaims.

(** Witness of C1: "Something feels off, help me investigate" scores 3
    for investigation and 1 for escalation. *)
Lemma classifyIntent_spec_witness :
  Analyzer.classifyIntent
    (Js.of_ascii "Something feels off, help me investigate")
  = investigation.
Proof.
  apply (proj1 (proj2 (proj2 (proj2
    (classifyIntent_spec
       (Js.of_ascii "Something feels off, help me investigate")))))).
  - vm_compute. lia.
  - intros j. destruct j; vm_compute; lia.
  - intros j. destruct j; vm_compute; lia.
Defined.

(** Witness of C2: "Users are reporting login failures" has no critical
    signal and the high signal [fail]. *)
Lemma classifyUrgency_first_match_witness :
  Analyzer.classifyUrgency (Js.of_ascii "Users are reporting login failures")
  = high.
Proof.
  apply (proj1 (classifyUrgency_first_match
                  (Js.of_ascii "Users are reporting login failures"))).
  - vm_compute. reflexivity.
  - intros earlier. destruct earlier; vm_compute; intros H;
      solve [reflexivity | lia].
Defined.

(** The worked inputs of the design document. *)

Example analyze_empty :
  Analyzer.analyze []
  = {| Analyzer.intent := exploration; Analyzer.urgency := low;
       Analyzer.confidence := 0.6 |}.
Proof. vm_compute. reflexivity. Qed.

Example analyze_login_failures :
  Analyzer.analyze (Js.of_ascii "Users are reporting login failures")
  = {| Analyzer.intent := incident; Analyzer.urgency := high;
       Analyzer.confidence := (0.7 + 3 * 0.08)%float |}.
Proof. vm_compute. reflexivity. Qed.

Example analyze_overview :
  Analyzer.analyze (Js.of_ascii "Give me a high-level overview of today")
  = {| Analyzer.intent := overview; Analyzer.urgency := low;
       Analyzer.confidence := (0.7 + 3 * 0.08)%float |}.
Proof. vm_compute. reflexivity. Qed.

Example analyze_investigate :
  Analyzer.analyze (Js.of_ascii "Something feels off, help me investigate")
  = {| Analyzer.intent := investigation; Analyzer.urgency := medium;
       Analyzer.confidence := (0.45 + 3 * 0.08)%float |}.
Proof. vm_compute. reflexivity. Qed.

Example analyze_escalating :
  Analyzer.analyze (Js.of_ascii "This is escalating, what should I do now?")
  = {| Analyzer.intent := escalation; Analyzer.urgency := critical;
       Analyzer.confidence := (0.7 + 3 * 0.08)%float |}.
Proof. vm_compute. reflexivity. Qed.

(** One point for each category: the tie goes to incident, the first
    declared. *)
Example analyze_four_way_tie :
  Analyzer.score_all (Js.of_ascii "break  down the WHY now")
  = [ (incident, 1%Z); (overview, 0%Z); (investigation, 1%Z);
      (escalation, 1%Z); (exploration, 1%Z) ]
  /\ Analyzer.classifyIntent (Js.of_ascii "break  down the WHY now")
     = incident.
Proof. vm_compute. split; reflexivity. Qed.

(* ================================================================== *)
(** * The response library *)

Section ResponseClaims.
Import Responses Spec.
#[local] Open Scope string_scope.

(** C4.  The confidence embedded in the document is
    [min(c, 0.54)] for investigation, [min(c, 0.65)] for exploration
    and [c] itself for incident, overview and escalation. *)
Theorem synthesized_confidence (c : float) (u : UrgencyLevel) :
  confidence (getResponseForIntent "investigation" u c) = Js.Math_min c 0.54
  /\ confidence (getResponseForIntent "exploration" u c) = Js.Math_min c 0.65
  /\ confidence (getResponseForIntent "incident" u c) = c
  /\ confidence (getResponseForIntent "overview" u c) = c
  /\ confidence (getResponseForIntent "escalation" u c) = c.
Proof. repeat split. Qed.

Lemma unknown_intent_exploration (name : string) u c :
  ~ In name intent_names ->
  getResponseForIntent name u c = explorationResponse c.
Proof.
  intros Hout. unfold getResponseForIntent.
  repeat match goal with
         | |- context [String.eqb name ?k] =>
             destruct (String.eqb_spec name k) as [->|_];
             [exfalso; apply Hout; cbn; tauto|]
         end.
  reflexivity.
Qed.

(** C5.  The document depends on the intent and the confidence only:
    any two urgency arguments give the same document; the layouts are
    grid, grid, split, stack, grid for incident, overview,
    investigation, escalation, exploration; [reasoning.urgency] is
    the template's label high, low, medium, critical, low whatever
    urgency is passed; an intent outside the five names gives the
    exploration template. *)
Theorem synthesis_keyed_on_intent :
  (forall name c u1 u2,
      getResponseForIntent name u1 c = getResponseForIntent name u2 c)
  /\ (forall c u,
        layout (getResponseForIntent "incident" u c) = "grid"
        /\ layout (getResponseForIntent "overview" u c) = "grid"
        /\ layout (getResponseForIntent "investigation" u c) = "split"
        /\ layout (getResponseForIntent "escalation" u c) = "stack"
        /\ layout (getResponseForIntent "exploration" u c) = "grid")
  /\ (forall c u,
        urgency (reasoning (getResponseForIntent "incident" u c)) = high
        /\ urgency (reasoning (getResponseForIntent "overview" u c)) = low
        /\ urgency (reasoning (getResponseForIntent "investigation" u c))
           = medium
        /\ urgency (reasoning (getResponseForIntent "escalation" u c))
           = critical
        /\ urgency (reasoning (getResponseForIntent "exploration" u c))
           = low)
  /\ (forall name c u,
        ~ In name intent_names ->
        getResponseForIntent name u c = explorationResponse c).
Proof.
  split; [reflexivity|].
  split; [intros; repeat split|].
  split; [intros; repeat split|].
  intros name c u. apply unknown_intent_exploration.
Qed.

Lemma analyzeSituation_confidence (input : Js.js_string) :
  confidence (analyzeSituation input)
  = confidence
      (getResponseForIntent
         (intent_name (Analyzer.classifyIntent input)) low
         (confidence_of (Analyzer.classifyIntent input)
            (Z.of_nat (score input (Analyzer.classifyIntent input))))).
Proof.
  unfold analyzeSituation, Analyzer.analyze.
  cbn [Analyzer.intent Analyzer.urgency Analyzer.confidence].
  now rewrite calculateConfidence_confidence_of.
Qed.

(** C10.  The confidence of the document that the pipeline produces
    lies between 0.45 and 0.95, strictly inside the interval from 0
    to 1 of the data model. *)
Theorem pipeline_confidence_range (input : Js.js_string) :
  PrimFloat.leb 0.45 (confidence (analyzeSituation input)) = true
  /\ PrimFloat.leb (confidence (analyzeSituation input)) 0.95 = true
  /\ PrimFloat.ltb 0 0.45 = true
  /\ PrimFloat.ltb 0.95 1 = true.
Proof.
  rewrite analyzeSituation_confidence.
  pose proof (score_le_13 input (Analyzer.classifyIntent input)) as Hle.
  apply small_count in Hle.
  assert (forallb
            (fun i =>
               forallb
                 (fun m =>
                    let c :=
                      confidence
                        (getResponseForIntent (intent_name i) low
                           (confidence_of i m)) in
                    PrimFloat.leb 0.45 c && PrimFloat.leb c 0.95)
                 [0; 1; 2; 3; 4; 5; 6; 7; 8; 9; 10; 11; 12; 13]%Z)
            declaration_order = true) as Hall by (vm_compute; reflexivity).
  rewrite forallb_forall in Hall.
  assert (In (Analyzer.classifyIntent input) declaration_order) as Hi
      by (destruct (Analyzer.classifyIntent input); cbn; tauto).
  specialize (Hall _ Hi). rewrite forallb_forall in Hall.
  specialize (Hall _ Hle). cbv zeta in Hall.
  apply andb_true_iff in Hall. destruct Hall as [H1 H2].
  repeat split; assumption || reflexivity.
Qed.
End ResponseClaims.

(** Witness of C5: an intent name outside the union. *)
Lemma synthesis_keyed_on_intent_witness :
  Responses.getResponseForIntent "triage" critical 0.9
  = Responses.explorationResponse 0.9.
Proof.
  apply (proj2 (proj2 (proj2 synthesis_keyed_on_intent))).
  cbn. intros H.
  repeat (destruct H as [H|H]; [discriminate H|]). exact H.
Defined.

Example pipeline_investigate :
  let schema :=
    analyzeSituation (Js.of_ascii "Something feels off, help me investigate") in
  layout schema = "split"
  /\ confidence schema = 0.54%float
  /\ urgency (reasoning schema) = medium.
Proof. vm_compute. repeat split. Qed.

Example pipeline_escalating :
  let schema :=
    analyzeSituation (Js.of_ascii "This is escalating, what should I do now?") in
  layout schema = "stack"
  /\ confidence schema = (0.7 + 3 * 0.08)%float
  /\ urgency (reasoning schema) = critical.
Proof. vm_compute. repeat split. Qed.

(* ================================================================== *)
(** * The composition engine *)

Section ListFacts.
Context {A : Type}.

Lemma filter_filter_implied (f g : A -> bool) (l : list A) :
  (forall a, f a = true -> g a = true) ->
  List.filter f (List.filter g l) = List.filter f l.
Proof.
  intros H. induction l as [|a l IH]; [reflexivity|].
  cbn [List.filter]. destruct (g a) eqn:Hg; cbn [List.filter].
  - now rewrite IH.
  - destruct (f a) eqn:Hf; [|exact IH].
    rewrite (H a Hf) in Hg. discriminate Hg.
Qed.

Lemma filter_filter_excluded (f g : A -> bool) (l : list A) :
  (forall a, f a = true -> g a = false) ->
  List.filter f (List.filter g l) = [].
Proof.
  intros H. induction l as [|a l IH]; [reflexivity|].
  cbn [List.filter]. destruct (g a) eqn:Hg; cbn [List.filter]; [|exact IH].
  destruct (f a) eqn:Hf; [|exact IH].
  rewrite (H a Hf) in Hg. discriminate Hg.
Qed.

Lemma filter_filter_comm (f g : A -> bool) (l : list A) :
  List.filter f (List.filter g l) = List.filter g (List.filter f l).
Proof.
  induction l as [|a l IH]; [reflexivity|].
  cbn [List.filter].
  destruct (f a) eqn:Hf, (g a) eqn:Hg; cbn [List.filter];
    rewrite ?Hf, ?Hg, IH; reflexivity.
Qed.

Lemma filter_partition_perm (g : A -> bool) (l : list A) :
  Permutation (List.filter (fun a => negb (g a)) l ++ List.filter g l) l.
Proof.
  induction l as [|a l IH]; [reflexivity|].
  cbn [List.filter]. destruct (g a); cbn [negb app].
  - rewrite <- Permutation_middle. now constructor.
  - now constructor.
Qed.

Lemma filter_sorted (R : A -> A -> Prop) (f : A -> bool) (l : list A) :
  StronglySorted R l -> StronglySorted R (List.filter f l).
Proof.
  induction 1 as [|a l Hl IH Ha]; cbn [List.filter]; [constructor|].
  destruct (f a); [|exact IH].
  constructor; [exact IH|].
  apply List.Forall_forall. intros b Hb. apply filter_In in Hb.
  rewrite List.Forall_forall in Ha. now apply Ha.
Qed.
End ListFacts.

Section LayoutFacts.
Import Registry Composition Spec.
#[local] Open Scope string_scope.
#[local] Open Scope Z_scope.

Lemma row_cells (class : UIComponentSpec -> string) l :
  Forall2 (renders_as class) (List.filter resolves l)
    (flat_map cells (List.map (render_cell class) l)).
Proof.
  induction l as [|spec l IH]; [constructor|].
  cbn [List.map flat_map List.filter]. unfold resolves at 1, render_cell at 1.
  destruct (resolveComponent (type spec)) as [w|] eqn:E; cbn [cells app].
  - constructor; [|exact IH]. repeat split. exact E.
  - exact IH.
Qed.

Lemma renders_as_renders class es cs :
  Forall2 (renders_as class) es cs -> Forall2 renders es cs.
Proof. induction 1; constructor; [now destruct H|assumption]. Qed.

Lemma GridLayout_cells l :
  Forall2
    (renders_as (fun spec =>
       if isFullWidth spec then full_width
       else if isCompact spec then quarter_width else half_width))
    (List.filter resolves l) (cells (GridLayout l)).
Proof.
  unfold GridLayout. cbn [cells].
  eapply List.Forall2_impl; [|apply row_cells].
  intros spec c [Hr Hc]. split; [exact Hr|]. rewrite Hc.
  now destruct (isFullWidth spec), (isCompact spec).
Qed.

Lemma StackLayout_cells l :
  Forall2 (renders_as (fun _ => full_width))
    (List.filter resolves l) (cells (StackLayout l)).
Proof. unfold StackLayout. cbn [cells]. apply row_cells. Qed.

Lemma SplitLayout_cells l :
  Forall2 (renders_as (fun _ => full_width))
    (List.filter resolves l) (cells (SplitLayout l)).
Proof.
  unfold SplitLayout. cbn [cells flat_map]. rewrite app_nil_r.
  rewrite <- (firstn_skipn (ceil_half (length l)) l) at 1.
  rewrite List.filter_app. apply List.Forall2_app;
    (eapply List.Forall2_impl; [|apply row_cells]);
    intros spec c [Hr Hc]; (split; [exact Hr|]); rewrite Hc;
    now destruct (isFullWidth spec).
Qed.

Lemma overlay_base_cells l :
  Forall2 (renders_as (fun _ => half_width))
    (List.filter resolves (List.filter (fun c => 2 <? priority c) l))
    (cells (overlay_base l)).
Proof. unfold overlay_base. cbn [cells]. apply row_cells. Qed.

Lemma overlay_top_cells l :
  Forall2 (renders_as (fun _ => full_width_overlay))
    (List.filter resolves (List.filter (fun c => priority c <=? 2) l))
    (cells (overlay_top l)).
Proof.
  unfold overlay_top.
  destruct (List.filter (fun c => priority c <=? 2) l) as [|a t] eqn:E.
  - cbn. constructor.
  - cbn [length Nat.ltb Nat.leb cells]. rewrite <- E. apply row_cells.
Qed.

Lemma OverlayLayout_cells l :
  cells (OverlayLayout l)
  = (cells (overlay_base l) ++ cells (overlay_top l))%list.
Proof. unfold OverlayLayout. cbn [cells flat_map]. now rewrite app_nil_r. Qed.

Lemma layoutMap_declared name Layout :
  Js.get layoutMap name = Some (Js.Declared Layout) ->
  (name = "grid" /\ Layout = GridLayout)
  \/ (name = "stack" /\ Layout = StackLayout)
  \/ (name = "split" /\ Layout = SplitLayout)
  \/ (name = "overlay" /\ Layout = OverlayLayout).
Proof.
  unfold Js.get. destruct (layoutMap !! name) as [f|] eqn:E.
  - intros [= <-]. apply elem_of_list_to_map_2 in E.
    repeat (apply elem_of_cons in E as [[= -> ->]|E]; [tauto|]).
    now apply elem_of_nil in E.
  - destruct (existsb _ _); discriminate.
Qed.

Lemma layoutMap_own name :
  In name layout_names ->
  exists Layout, Js.get layoutMap name = Some (Js.Declared Layout).
Proof.
  cbn. intros [<-|[<-|[<-|[<-|[]]]]]; eexists; vm_compute; reflexivity.
Qed.

Lemma layoutMap_undefined name :
  ~ In name layout_names ->
  ~ In name Js.object_prototype_keys ->
  Js.get layoutMap name = None.
Proof.
  intros Hl Hp. unfold Js.get.
  assert (layoutMap !! name = None) as ->.
  { apply not_elem_of_list_to_map_1. cbn [fmap list_fmap fst].
    intros Hin. apply Hl. now apply list_elem_of_In. }
  destruct (existsb _ _) eqn:E; [|reflexivity].
  apply existsb_exists in E. destruct E as (k & Hk & Heq).
  apply String.eqb_eq in Heq. subst k. contradiction.
Qed.
End LayoutFacts.

Section CompositionFacts.
Import Registry Composition Spec.
#[local] Open Scope string_scope.
#[local] Open Scope Z_scope.

Lemma filter_perm {A : Type} (f : A -> bool) (l l' : list A) :
  Permutation l l' -> Permutation (List.filter f l) (List.filter f l').
Proof.
  induction 1 as [|a l l' _ IH|a b l|l l' l'' _ IH1 _ IH2];
    cbn [List.filter].
  - constructor.
  - destruct (f a); [now constructor|exact IH].
  - destruct (f a), (f b); try reflexivity. apply perm_swap.
  - now transitivity (List.filter f l').
Qed.

Lemma by_priority_key a b : by_priority a b = priority a - priority b.
Proof. reflexivity. Qed.

Lemma has_priority_key p a b :
  has_priority p a = true -> has_priority p b = true ->
  priority a = priority b.
Proof. unfold has_priority. intros Ha Hb. lia. Qed.

(** The array handed to the layout: the visible entries in ascending
    priority, entries of equal priority in their original order. *)
Lemma sorted_visible (entries : list UIComponentSpec) :
  let sorted := Js.sort by_priority (List.filter is_visible entries) in
  Permutation sorted (List.filter is_visible entries)
  /\ StronglySorted (ascending priority) sorted
  /\ (forall p, List.filter (has_priority p) sorted
                = List.filter (has_priority p)
                    (List.filter is_visible entries)).
Proof.
  cbv zeta. split; [apply sort_perm|].
  split; [apply (sort_sorted priority), by_priority_key|].
  intros p. apply (sort_stable priority); [apply by_priority_key|].
  apply has_priority_key.
Qed.

(** The entries a layout gives a cell, in document order: one run,
    and under the overlay layout the base run followed by the top
    run. *)
Lemma layout_entries Layout (l : list UIComponentSpec) :
  In Layout [GridLayout; StackLayout; SplitLayout; OverlayLayout] ->
  exists base top,
    Forall2 renders (base ++ top) (cells (Layout l))
    /\ Permutation (base ++ top) (List.filter resolves l)
    /\ (forall p, List.filter (has_priority p) (base ++ top)
                  = List.filter (has_priority p) (List.filter resolves l))
    /\ (StronglySorted (ascending priority) l ->
        StronglySorted (ascending priority) base
        /\ StronglySorted (ascending priority) top)
    /\ (Layout = OverlayLayout \/ top = []).
Proof.
  intros [<-|[<-|[<-|[<-|[]]]]].
  1-3: exists (List.filter resolves l), []; rewrite app_nil_r;
    (split; [eapply renders_as_renders;
             first [apply GridLayout_cells | apply StackLayout_cells
                   | apply SplitLayout_cells]|]);
    (split; [reflexivity|]); (split; [reflexivity|]);
    (split; [|now right]); intros Hs;
    (split; [now apply filter_sorted|constructor]).
  exists (List.filter resolves (List.filter (fun c => 2 <? priority c) l)),
    (List.filter resolves (List.filter (fun c => priority c <=? 2) l)).
  split; [|split; [|split; [|split; [|now left]]]].
  - rewrite OverlayLayout_cells. apply List.Forall2_app;
      eapply renders_as_renders;
      [apply overlay_base_cells|apply overlay_top_cells].
  - rewrite <- List.filter_app. apply filter_perm.
    rewrite (List.filter_ext (fun c => 2 <? priority c)
               (fun c => negb (priority c <=? 2))).
    + apply filter_partition_perm.
    + intros c. destruct (Z.leb_spec (priority c) 2), (Z.ltb_spec 2 (priority c));
        cbn; reflexivity || lia.
  - intros p. rewrite List.filter_app.
    rewrite !(filter_filter_comm (has_priority p) resolves).
    destruct (Z.leb_spec p 2) as [Hp|Hp].
    + rewrite (filter_filter_excluded (has_priority p)),
        (filter_filter_implied (has_priority p)); [reflexivity|..];
        unfold has_priority; intros c Hc; lia.
    + rewrite (filter_filter_implied (has_priority p)),
        (filter_filter_excluded (has_priority p));
        [cbn [List.filter]; now rewrite app_nil_r|..];
        unfold has_priority; intros c Hc; lia.
  - intros Hs. split; now repeat apply filter_sorted.
Qed.

(** Every arrangement the engine returns places exactly the visible
    entries whose lookup resolves, each once, entries of equal
    priority in their original order, each run in ascending
    priority. *)
Lemma composition_arranged (schema : UISchema) (tree : vnode) :
  content (SentinelComposition schema) = Arranged tree ->
  let shown :=
    List.filter resolves (List.filter is_visible (components schema)) in
  exists base top,
    Forall2 renders (base ++ top) (cells tree)
    /\ Permutation (base ++ top) shown
    /\ (forall p, List.filter (has_priority p) (base ++ top)
                  = List.filter (has_priority p) shown)
    /\ StronglySorted (ascending priority) base
    /\ StronglySorted (ascending priority) top
    /\ (layout schema = "overlay" \/ top = []).
Proof.
  intros Hc. cbv zeta. unfold SentinelComposition in Hc. cbn [content] in Hc.
  destruct (sorted_visible (components schema)) as (Hperm & Hsorted & Hstable).
  set (sorted := Js.sort by_priority
                   (List.filter is_visible (components schema))) in *.
  assert (exists Layout,
             In Layout [GridLayout; StackLayout; SplitLayout; OverlayLayout]
             /\ tree = Layout sorted
             /\ (Layout = OverlayLayout -> layout schema = "overlay"))
    as (Layout & Hin & -> & Hov).
  { destruct (Js.get layoutMap (layout schema)) as [[Layout|name]|] eqn:E;
      cbn [default] in Hc; try discriminate Hc; injection Hc as <-.
    - exists Layout. apply layoutMap_declared in E.
      destruct E as [[-> ->]|[[-> ->]|[[-> ->]|[-> ->]]]];
        (split; [cbn; tauto|split; [reflexivity|]]);
        try reflexivity; intros Heq;
        apply (f_equal (fun f => f [])) in Heq; discriminate Heq.
    - exists GridLayout. split; [cbn; tauto|split; [reflexivity|]].
      intros Heq. apply (f_equal (fun f => f [])) in Heq. discriminate Heq. }
  destruct (layout_entries Layout sorted Hin)
    as (base & top & Hr & Hp & Hst & Hso & Htop).
  exists base, top. split; [exact Hr|].
  split; [rewrite Hp; now apply filter_perm|].
  split.
  { intros p. rewrite Hst.
    rewrite !(filter_filter_comm (has_priority p) resolves).
    now rewrite Hstable. }
  destruct (Hso Hsorted) as [Hb Ht]. repeat split; try assumption.
  destruct Htop as [-> | ->]; [left; now apply Hov|now right].
Qed.

Lemma resolves_registered (spec : UIComponentSpec) :
  ~ In (type spec) Js.object_prototype_keys ->
  resolves spec = registered (type spec).
Proof.
  intros Hp. unfold resolves, registered, resolveComponent, Js.get.
  destruct (componentRegistry !! type spec); [reflexivity|].
  destruct (existsb _ _) eqn:E; [|reflexivity].
  apply existsb_exists in E. destruct E as (k & Hk & Heq).
  apply String.eqb_eq in Heq. subst k. contradiction.
Qed.

(** On documents none of whose types names a member of
    [Object.prototype], the entries placed are the visible entries of
    registered type. *)
Lemma composition_places_registered (schema : UISchema) (tree : vnode) :
  Forall (fun spec => ~ In (type spec) Js.object_prototype_keys)
    (components schema) ->
  content (SentinelComposition schema) = Arranged tree ->
  exists entries,
    Forall2 renders entries (cells tree)
    /\ Permutation entries
         (List.filter (fun spec => registered (type spec))
            (List.filter is_visible (components schema)))
    /\ (forall p,
          List.filter (has_priority p) entries
          = List.filter (has_priority p)
              (List.filter (fun spec => registered (type spec))
                 (List.filter is_visible (components schema)))).
Proof.
  intros Hproto Hc.
  destruct (composition_arranged _ _ Hc) as (base & top & Hr & Hp & Hs & _).
  assert (List.filter resolves (List.filter is_visible (components schema))
          = List.filter (fun spec => registered (type spec))
              (List.filter is_visible (components schema))) as Heq.
  { apply List.filter_ext_in. intros spec Hin. apply resolves_registered.
    apply filter_In in Hin. destruct Hin as [Hin _].
    rewrite List.Forall_forall in Hproto. now apply Hproto. }
  exists (base ++ top)%list. rewrite <- Heq. repeat split; assumption.
Qed.
End CompositionFacts.

Section CompositionClaims.
Import Registry Composition Spec.
#[local] Open Scope string_scope.
#[local] Open Scope Z_scope.

(** C6, at the input where the code leaves it.  A visible entry whose
    type is the name of a member of [Object.prototype] is not a key of
    the registry, yet the lookup returns the inherited member and the
    grid gives the entry a cell. *)
Theorem inherited_type_is_placed :
  registered "constructor" = false
  /\ resolveComponent "constructor" = Some (Js.Builtin "constructor")
  /\ content
       (SentinelComposition
          (document "grid" 0.9 [entry "x" "constructor" 1 visible]))
     = Arranged
         (VDiv "sentinel-layout sentinel-layout--grid"
            [ VCell {| key := "x";
                       className := half_width;
                       animationDelay := 60;
                       element := Js.Builtin "constructor";
                       element_props := JObj [] |} ]).
Proof. repeat split. Qed.

(** C7 as worded fails: a visible entry of priority 1 whose type is
    not registered gets no cell in the overlay layer. *)
Lemma overlay_skips_unregistered :
  ~ overlay_places_every_entry
      (document "overlay" 0.9 [entry "w" "Widget" 1 visible]).
Proof.
  intros H.
  destruct (H (entry "w" "Widget" 1 visible)) as [Htop _];
    [now left|reflexivity|].
  destruct Htop as (c & Hc & _); [cbn; lia|].
  vm_compute in Hc. exact Hc.
Qed.

(** C7, amended.  Under the overlay layout the cells of the overlay
    layer are, one for one and in the order of the priority-sorted
    input, the visible entries of priority at most 2 whose type
    resolves, all full-width; the cells of the base layer are likewise
    those of priority above 2, all half-width; such an entry is in
    exactly one of the two layers; an entry whose type does not
    resolve has no cell. *)
Theorem overlay_partition (schema : UISchema) :
  layout schema = "overlay" ->
  let sorted := sorted_visible_entries schema in
  let top :=
    List.filter resolves (List.filter (fun c => priority c <=? 2) sorted) in
  let base :=
    List.filter resolves (List.filter (fun c => 2 <? priority c) sorted) in
  content (SentinelComposition schema) = Arranged (OverlayLayout sorted)
  /\ Forall2 (renders_as (fun _ => full_width_overlay)) top
       (cells (overlay_top sorted))
  /\ Forall2 (renders_as (fun _ => half_width)) base
       (cells (overlay_base sorted))
  /\ (forall spec,
        In spec (components schema) -> visibility spec = visible ->
        resolves spec = true ->
        (priority spec <= 2 -> In spec top /\ ~ In spec base)
        /\ (2 < priority spec -> In spec base /\ ~ In spec top))
  /\ (forall spec c, resolves spec = false -> ~ renders spec c).
Proof.
  intros Hl. cbv zeta.
  split.
  { unfold SentinelComposition. cbn [content]. rewrite Hl. reflexivity. }
  split; [apply overlay_top_cells|].
  split; [apply overlay_base_cells|].
  split.
  - intros spec Hin Hvis Hres.
    assert (In spec (sorted_visible_entries schema)) as Hs.
    { eapply Permutation_in;
        [symmetry; apply (sort_perm by_priority)|].
      apply filter_In. split; [exact Hin|].
      unfold is_visible. now rewrite Hvis. }
    rewrite !filter_In. split; intros Hp.
    + split; [repeat split; try assumption; lia|].
      intros [[_ H] _]. lia.
    + split; [repeat split; try assumption; lia|].
      intros [[_ H] _]. lia.
  - intros spec c Hres (_ & _ & Hr & _). unfold resolves in Hres.
    now rewrite Hr in Hres.
Qed.

Lemma unknown_layout_grid (schema : UISchema) :
  ~ In (layout schema) layout_names ->
  ~ In (layout schema) Js.object_prototype_keys ->
  content (SentinelComposition schema)
  = Arranged (GridLayout (sorted_visible_entries schema)).
Proof.
  intros Hl Hp. unfold SentinelComposition. cbn [content].
  now rewrite (layoutMap_undefined _ Hl Hp).
Qed.

(** C8, at the input where the code leaves it.  The layout value
    [constructor] is none of the four strategies, yet the lookup
    returns the inherited member, the fallback to the grid is not
    taken and no grid placement is produced. *)
Theorem inherited_layout_is_not_grid :
  let schema :=
    document "constructor" 0.9 [entry "b" "StatusBanner" 1 visible] in
  ~ In (layout schema) layout_names
  /\ content (SentinelComposition schema)
     = ForeignElement "constructor" (sorted_visible_entries schema)
  /\ content (SentinelComposition schema)
     <> Arranged (GridLayout (sorted_visible_entries schema)).
Proof.
  cbv zeta. split; [|split].
  - cbn. intros H.
    repeat (destruct H as [H|H]; [discriminate H|]). exact H.
  - reflexivity.
  - discriminate.
Qed.

(** C9 as worded fails: a document with confidence 1.5 and a repeated
    id is rendered as an arrangement. *)
Lemma malformed_document_is_rendered :
  ~ surfaces_validation_failure
      (document "stack" 1.5
         [entry "a" "AlertPanel" 1 visible; entry "a" "LogViewer" 2 visible]).
Proof.
  intros H. eapply H; [|reflexivity].
  intros [Hc _]. vm_compute in Hc. discriminate Hc.
Qed.

(** C9, amended.  The engine does not validate the document: for every
    document whose layout is one of the four strategies, whatever its
    confidence and whether or not ids repeat, it returns an
    arrangement in which the visible entries whose type resolves have
    one cell each, and the confidence strip is as wide as the
    confidence times 100. *)
Theorem composition_without_validation (schema : UISchema) :
  In (layout schema) layout_names ->
  bar_width (SentinelComposition schema) = (confidence schema * 100)%float
  /\ exists tree entries,
      content (SentinelComposition schema) = Arranged tree
      /\ Forall2 renders entries (cells tree)
      /\ Permutation entries
           (List.filter resolves
              (List.filter is_visible (components schema))).
Proof.
  intros Hl. split; [reflexivity|].
  destruct (layoutMap_own _ Hl) as [Layout HL].
  assert (content (SentinelComposition schema)
          = Arranged (Layout (sorted_visible_entries schema))) as Hc.
  { unfold SentinelComposition. cbn [content]. now rewrite HL. }
  destruct (composition_arranged _ _ Hc)
    as (base & top & Hr & Hp & _).
  exists (Layout (sorted_visible_entries schema)), (base ++ top)%list.
  repeat split; assumption.
Qed.
(** Under the overlay layout the base layer precedes the overlay layer
    in the tree; within a layer equal priorities keep their order. *)
Example overlay_document_order :
  List.map key
    (cells
       (OverlayLayout
          (sorted_visible_entries
             (document "overlay" 0.9
                [ entry "a" "MetricCard" 3 visible;
                  entry "b" "StatusBanner" 1 visible;
                  entry "c" "LogViewer" 1 hidden;
                  entry "d" "GeoMap" 3 visible;
                  entry "e" "AlertPanel" 2 conditional;
                  entry "f" "ChartView" 1 visible ]))))
  = ["a"; "d"; "b"; "f"].
Proof. vm_compute. reflexivity. Qed.
End CompositionClaims.

(** Witness of C7: an overlay document with a banner and a chart. *)
Lemma overlay_partition_witness :
  Composition.content
    (Composition.SentinelComposition
       (Spec.document "overlay" 0.9
          [ Spec.entry "chart-1" "ChartView" 3 visible;
            Spec.entry "banner-1" "StatusBanner" 1 visible ]))
  = Composition.Arranged
      (Composition.OverlayLayout
         [ Spec.entry "banner-1" "StatusBanner" 1 visible;
           Spec.entry "chart-1" "ChartView" 3 visible ]).
Proof.
  exact (proj1 (overlay_partition
                  (Spec.document "overlay" 0.9
                     [ Spec.entry "chart-1" "ChartView" 3 visible;
                       Spec.entry "banner-1" "StatusBanner" 1 visible ])
                  eq_refl)).
Defined.

(** Witness of C9: the document with confidence 1.5 and a repeated id. *)
Lemma composition_without_validation_witness :
  Composition.bar_width
    (Composition.SentinelComposition
       (Spec.document "stack" 1.5
          [ Spec.entry "a" "AlertPanel" 1 visible;
            Spec.entry "a" "LogViewer" 2 visible ]))
  = 150%float.
Proof.
  refine (eq_trans
            (proj1 (composition_without_validation
                      (Spec.document "stack" 1.5
                         [ Spec.entry "a" "AlertPanel" 1 visible;
                           Spec.entry "a" "LogViewer" 2 visible ]) _)) _).
  - cbn. tauto.
  - reflexivity.
Defined.

(* ================================================================== *)
(** * Further properties of the analyzer *)

Section AnalyzerMore.
Import Js Analyzer Spec Terms.

Lemma classifyIntent_result (input : js_string) :
  let i := classifyIntent input in
  (forall j, score input j <= score input i)
  /\ (0 < score input i ->
      forall j, position j < position i -> score input j < score input i)
  /\ (i <> exploration -> 0 < score input i).
Proof.
  cbv zeta. unfold classifyIntent. rewrite score_all_scores.
  destruct (Js.sort _ _) as [|[x n] rest] eqn:Hs.
  { apply (f_equal (@length _)) in Hs.
    rewrite (Permutation_length (sort_perm _ _)) in Hs. discriminate Hs. }
  apply (sort_head (fun kv => (- snd kv)%Z)) in Hs; [|intros; cbn; lia].
  destruct Hs as (before & after & Heq & Hb & Ha).
  unfold declaration_order in Heq. cbn [List.map] in Heq.
  destruct before as [|b1 [|b2 [|b3 [|b4 [|b5 before]]]]];
    cbn [app] in Heq; injection Heq as <-; subst;
    repeat match goal with
           | H : Forall _ (_ :: _) |- _ =>
               apply List.Forall_cons_iff in H; cbn [snd] in H;
               destruct H as [? H]
           | H : _ = _ ++ _ :: _ |- _ =>
               apply (f_equal (@length _)) in H; rewrite length_app in H;
               cbn in H; lia
           end;
    match goal with
    | |- context [(0 <? ?n)%Z] => destruct (Z.ltb_spec 0 n)
    end;
    (split; [|split]);
    try (intros j; destruct j; cbn [position]; lia);
    try (intros _ j; destruct j; cbn [position]; lia);
    try (intros Hne; try lia; now contradiction Hne).
Qed.

(** X1.  The intent returned always has the greatest score; when that
    score is positive no category declared earlier reaches it; an
    intent other than exploration is returned only with a positive
    score. *)
Theorem classifyIntent_maximal (input : js_string) :
  let i := classifyIntent input in
  (forall j, score input j <= score input i)
  /\ (0 < score input i ->
      forall j, position j < position i -> score input j < score input i)
  /\ (i <> exploration -> 0 < score input i).
Proof. exact (classifyIntent_result input). Qed.

Lemma classifyIntent_case_insensitive (input : js_string) :
  classifyIntent (List.map canonicalize input) = classifyIntent input.
Proof.
  unfold classifyIntent. rewrite !score_all_scores.
  rewrite (List.map_ext
             (fun i => (i, Z.of_nat (score (List.map canonicalize input) i)))
             (fun i => (i, Z.of_nat (score input i)))); [reflexivity|].
  intros i. now rewrite score_case_insensitive.
Qed.

Lemma signalled_case_insensitive (input : js_string) level :
  signalled (List.map canonicalize input) level = signalled input level.
Proof.
  unfold signalled. induction (urgency_signals level) as [|p ps IH];
    [reflexivity|].
  cbn [existsb]. now rewrite test_case_insensitive, IH.
Qed.

(** X2.  The analysis ignores the case of the ASCII letters of the input:
    intent, urgency and confidence are those of the input with every
    letter in upper case. *)
Theorem analyze_case_insensitive (input : js_string) :
  analyze (List.map canonicalize input) = analyze input.
Proof.
  unfold analyze. rewrite classifyIntent_case_insensitive.
  f_equal.
  - unfold classifyUrgency, first_level.
    rewrite !level_matches_existsb.
    change (existsb (fun pattern => test pattern ?s) (urgency_signals ?l))
      with (signalled s l).
    now rewrite !signalled_case_insensitive.
  - rewrite !calculateConfidence_confidence_of.
    now rewrite score_case_insensitive.
Qed.
End AnalyzerMore.

Section NoLetters.
Import Js Analyzer Spec Terms.

Lemma same_letter_alnum a c :
  is_alnum (N_of_ascii a) = true -> same_letter a c = true ->
  is_alnum c = true.
Proof.
  unfold same_letter, canonicalize, is_alnum.
  generalize (N_of_ascii a). intros n Hn Hs.
  apply N.eqb_eq in Hs. revert Hn Hs.
  repeat (match goal with
          | |- context [(?x <=? ?y)%N] => destruct (N.leb_spec x y)
          end; cbn [andb orb]);
    intros; try discriminate; try reflexivity; lia.
Qed.

Lemma iterate_rest (P : code_unit -> Prop) fuel (f : state -> list state) :
  (forall st st', Forall P (snd st) -> In st' (f st) -> Forall P (snd st')) ->
  forall st st',
    Forall P (snd st) -> In st' (iterate fuel f st) -> Forall P (snd st').
Proof.
  intros Hf. induction fuel as [|n IH]; intros st st' HP Hin.
  - destruct Hin as [<-|[]]. exact HP.
  - cbn [iterate] in Hin. destruct Hin as [<-|Hin]; [exact HP|].
    apply in_flat_map in Hin. destruct Hin as (mid & Hmid & Hin).
    apply filter_In in Hmid. destruct Hmid as [Hmid _].
    eapply IH; [|exact Hin]. eapply Hf; eassumption.
Qed.

(** A match only moves forward: what lies ahead of an end position lay
    ahead of the start. *)
Lemma run_rest (P : code_unit -> Prop) r :
  forall st st',
    Forall P (snd st) -> In st' (run r st) -> Forall P (snd st').
Proof.
  assert (forall p st st',
             Forall P (snd st) -> In st' (consume p st) ->
             Forall P (snd st')) as Hconsume.
  { intros p [prev [|c rest]] st' HP Hin; cbn in Hin; [contradiction|].
    destruct (p c); [|contradiction]. destruct Hin as [<-|[]].
    cbn in *. now apply List.Forall_cons_iff in HP. }
  induction r; intros st st' HP Hin; cbn [run] in Hin.
  - destruct Hin as [<-|[]]. exact HP.
  - eapply Hconsume; eassumption.
  - eapply Hconsume; eassumption.
  - destruct (at_boundary st); [|contradiction].
    destruct Hin as [<-|[]]. exact HP.
  - eapply Hconsume; eassumption.
  - apply in_flat_map in Hin. destruct Hin as (mid & Hmid & Hin).
    eapply IHr2; [|exact Hin]. eapply IHr1; eassumption.
  - apply in_app_iff in Hin. destruct Hin as [Hin|Hin];
      [eapply IHr1|eapply IHr2]; eassumption.
  - apply in_app_iff in Hin. destruct Hin as [Hin|[<-|[]]];
      [eapply IHr; eassumption|exact HP].
  - apply in_flat_map in Hin. destruct Hin as (mid & Hmid & Hin).
    eapply (iterate_rest P); [exact IHr| |exact Hin].
    eapply IHr; eassumption.
  - eapply (iterate_rest P); [exact IHr|exact HP|exact Hin].
Qed.

Lemma flat_map_nil {A B : Type} (f : A -> list B) (l : list A) :
  (forall x, In x l -> f x = []) -> flat_map f l = [].
Proof.
  induction l as [|x l IH]; intros H; [reflexivity|].
  cbn. rewrite (H x) by now left. apply IH. intros y Hy. apply H. now right.
Qed.

Lemma run_needs_alnum r :
  needs_alnum r = true ->
  forall st, Forall (fun c => is_alnum c = false) (snd st) -> run r st = [].
Proof.
  induction r; cbn [needs_alnum]; intros Hn st HP; try discriminate Hn;
    cbn [run].
  - destruct st as [prev [|c rest]]; [reflexivity|]. unfold consume. cbn.
    destruct (same_letter a c) eqn:Hs; [|reflexivity].
    apply List.Forall_cons_iff in HP. destruct HP as [Hc _]. cbn in Hc.
    rewrite (same_letter_alnum a c Hn Hs) in Hc. discriminate Hc.
  - apply orb_true_iff in Hn. destruct Hn as [Hn|Hn].
    + now rewrite (IHr1 Hn st HP).
    + apply flat_map_nil. intros mid Hmid. apply (IHr2 Hn).
      eapply run_rest; eassumption.
  - apply andb_true_iff in Hn. destruct Hn as [Hn1 Hn2].
    now rewrite (IHr1 Hn1 st HP), (IHr2 Hn2 st HP).
  - now rewrite (IHr Hn st HP).
Qed.

Lemma test_needs_alnum r input :
  needs_alnum r = true ->
  Forall (fun c => is_alnum c = false) input ->
  test r input = false.
Proof.
  intros Hn. unfold test. generalize (@None code_unit).
  induction input as [|c rest IH]; intros prev HP.
  - change (match run r (prev, []) with _ :: _ => true | [] => false end
            = false).
    now rewrite (run_needs_alnum r Hn (prev, []) HP).
  - change (match run r (prev, c :: rest) with
            | _ :: _ => true
            | [] => search r (Some c) rest
            end = false).
    rewrite (run_needs_alnum r Hn (prev, c :: rest) HP).
    apply IH. now apply List.Forall_cons_iff in HP.
Qed.

Lemma all_patterns_need_alnum : forallb needs_alnum all_patterns = true.
Proof. vm_compute. reflexivity. Qed.

Lemma matching_none patterns input :
  (forall p, In p patterns -> test p input = false) ->
  matching patterns input = 0.
Proof.
  unfold matching. induction patterns as [|p ps IH]; intros H; [reflexivity|].
  cbn [List.filter]. rewrite (H p) by now left.
  apply IH. intros q Hq. apply H. now right.
Qed.

Lemma intent_patterns_all i p :
  In p (intent_patterns i) -> In p all_patterns.
Proof.
  intros Hin. unfold all_patterns. apply in_app_iff. left.
  apply in_flat_map. exists (i, intent_patterns i). split; [|exact Hin].
  destruct i; cbn; tauto.
Qed.

Lemma urgency_signals_all level p :
  In p (urgency_signals level) -> In p all_patterns.
Proof.
  intros Hin. unfold all_patterns. apply in_app_iff. right.
  apply in_flat_map. exists (level, urgency_signals level).
  split; [|exact Hin]. destruct level; cbn; tauto.
Qed.

(** X3.  An input without any ASCII letter or digit (the empty input,
    blanks, punctuation, text in another script) matches no pattern:
    the analysis is exploration, low, 0.6. *)
Theorem analyze_without_letters (input : js_string) :
  Forall (fun c => is_alnum c = false) input ->
  analyze input
  = {| Analyzer.intent := exploration; Analyzer.urgency := low;
       Analyzer.confidence := 0.6 |}.
Proof.
  intros HP.
  assert (forall p, In p all_patterns -> test p input = false) as Hnone.
  { intros p Hp. apply test_needs_alnum; [|exact HP].
    pose proof all_patterns_need_alnum as Hall.
    rewrite forallb_forall in Hall. now apply Hall. }
  assert (forall i, score input i = 0) as Hscore.
  { intros i. apply matching_none. intros p Hp.
    apply Hnone. eapply intent_patterns_all; eassumption. }
  unfold analyze.
  rewrite (classifyIntent_no_match input Hscore).
  rewrite calculateConfidence_confidence_of, Hscore.
  f_equal.
  assert (forall level,
             existsb (fun pattern => test pattern input)
               (urgency_signals level) = false) as Hsig.
  { intros level. apply not_true_is_false. intros Hex.
    apply existsb_exists in Hex. destruct Hex as (p & Hp & Ht).
    rewrite (Hnone p) in Ht; [discriminate Ht|].
    eapply urgency_signals_all; eassumption. }
  unfold classifyUrgency, first_level.
  rewrite !level_matches_existsb. now rewrite !Hsig.
Qed.
End NoLetters.

(** Witness of X3: punctuation, blanks and a unit outside ASCII. *)
Lemma analyze_without_letters_witness :
  Analyzer.analyze (Js.of_ascii "?!  ... --" ++ [8230%N])
  = {| Analyzer.intent := exploration; Analyzer.urgency := low;
       Analyzer.confidence := 0.6 |}.
Proof.
  apply analyze_without_letters.
  repeat (constructor; [reflexivity|]). constructor.
Defined.

Section UrgencyAndConfidence.
Import Js Analyzer Spec Terms.

Lemma matching_positive patterns input p :
  In p patterns -> test p input = true -> 0 < matching patterns input.
Proof.
  unfold matching. induction patterns as [|q qs IH]; intros Hin Ht;
    [contradiction|].
  cbn [List.filter]. destruct Hin as [->|Hin].
  - rewrite Ht. cbn. lia.
  - destruct (test q input); cbn [length]; [lia|now apply IH].
Qed.

Lemma classifyUrgency_critical_signalled (input : js_string) :
  classifyUrgency input = critical -> signalled input critical = true.
Proof.
  unfold classifyUrgency, first_level, signalled.
  rewrite !level_matches_existsb.
  destruct (existsb _ (urgency_signals critical)); [reflexivity|].
  destruct (existsb _ (urgency_signals high)); [discriminate|].
  destruct (existsb _ (urgency_signals medium)); [discriminate|].
  destruct (existsb _ (urgency_signals low)); discriminate.
Qed.

(** X4.  Every critical signal is also an escalation pattern: an input whose
    urgency is critical scores at least one point for escalation. *)
Theorem critical_scores_escalation (input : js_string) :
  classifyUrgency input = critical -> 0 < score input escalation.
Proof.
  intros Hc. apply classifyUrgency_critical_signalled in Hc.
  unfold signalled in Hc. apply existsb_exists in Hc.
  destruct Hc as (p & Hp & Ht).
  apply (matching_positive _ _ p); [|exact Ht].
  revert Hp. clear. vm_compute.
  intros H.
  repeat (destruct H as [<-|H]; [tauto|]). contradiction.
Qed.

(** X5.  For a given intent, an input on which more of its patterns
    match never gets a lower confidence. *)
Theorem calculateConfidence_monotone (i : IntentType) (a b : js_string) :
  score a i <= score b i ->
  PrimFloat.leb (calculateConfidence i a) (calculateConfidence i b) = true.
Proof.
  intros Hle. rewrite !calculateConfidence_confidence_of.
  pose proof (small_count _ (score_le_13 a i)) as Ha.
  pose proof (small_count _ (score_le_13 b i)) as Hb.
  assert (forallb
            (fun i =>
               forallb
                 (fun x =>
                    forallb
                      (fun y =>
                         negb (x <=? y)%Z
                         || PrimFloat.leb (confidence_of i x)
                              (confidence_of i y))
                      [0; 1; 2; 3; 4; 5; 6; 7; 8; 9; 10; 11; 12; 13]%Z)
                 [0; 1; 2; 3; 4; 5; 6; 7; 8; 9; 10; 11; 12; 13]%Z)
            declaration_order = true) as Hall by (vm_compute; reflexivity).
  rewrite forallb_forall in Hall.
  assert (In i declaration_order) as Hi by (destruct i; cbn; tauto).
  specialize (Hall i Hi). rewrite forallb_forall in Hall.
  specialize (Hall _ Ha). rewrite forallb_forall in Hall.
  specialize (Hall _ Hb). apply orb_true_iff in Hall.
  destruct Hall as [Hall|Hall]; [|exact Hall].
  apply negb_true_iff, Z.leb_gt in Hall. lia.
Qed.

(** X6.  From the fourth matching pattern on the bonus is at its cap of
    0.25 and the confidence no longer changes. *)
Theorem calculateConfidence_saturates (i : IntentType) (input : js_string) :
  4 <= score input i ->
  calculateConfidence i input = Math_min (baseConfidence i + 0.25) 0.95.
Proof.
  intros Hle. rewrite calculateConfidence_confidence_of.
  pose proof (small_count _ (score_le_13 input i)) as Hin.
  assert (0 <= Z.of_nat (score input i) < 4 -> False)%Z as Hlow by lia.
  revert Hin Hlow. generalize (Z.of_nat (score input i)). intros m Hin Hlow.
  cbn [In] in Hin.
  repeat (destruct Hin as [<-|Hin]; [try (exfalso; apply Hlow; lia)|]);
    try contradiction;
    destruct i; vm_compute; reflexivity.
Qed.
End UrgencyAndConfidence.

(** Witness of X4: "This is escalating" is critical. *)
Lemma critical_scores_escalation_witness :
  0 < Spec.score (Js.of_ascii "This is escalating") escalation.
Proof.
  apply critical_scores_escalation. vm_compute. reflexivity.
Defined.

(** Witness of X5: one match against three for the incident patterns. *)
Lemma calculateConfidence_monotone_witness :
  PrimFloat.leb
    (Analyzer.calculateConfidence incident (Js.of_ascii "the site is down"))
    (Analyzer.calculateConfidence incident
       (Js.of_ascii "Users are reporting login failures"))
  = true.
Proof.
  apply calculateConfidence_monotone. vm_compute. lia.
Defined.

(** Witness of X6: five incident patterns match. *)
Lemma calculateConfidence_saturates_witness :
  Analyzer.calculateConfidence incident
    (Js.of_ascii "outage: crash, error 500 and a timeout")
  = Js.Math_min (Analyzer.baseConfidence incident + 0.25) 0.95.
Proof.
  apply calculateConfidence_saturates. vm_compute. lia.
Defined.

(* ================================================================== *)
(** * Further properties of the templates and of the pipeline *)

Section SortedInput.
Context {A : Type} (key : A -> Z) (cmp : A -> A -> Z).
Hypothesis cmp_key : forall a b, cmp a b = (key a - key b)%Z.

(** Sorting an array that is already in order leaves it as it is. *)
Lemma sort_sorted_id (l : list A) :
  StronglySorted (Spec.ascending key) l -> Js.sort cmp l = l.
Proof using cmp_key.
  induction 1 as [|x l Hl IH Hx]; [reflexivity|].
  cbn [Js.sort]. rewrite IH. destruct l as [|y l']; [reflexivity|].
  cbn [Js.insert_stable]. rewrite cmp_key.
  apply List.Forall_cons_iff in Hx. destruct Hx as [Hxy _].
  unfold Spec.ascending in Hxy.
  destruct (Z.ltb_spec 0 (key x - key y)); [lia|reflexivity].
Qed.
End SortedInput.

Section Templates.
Import Registry Composition Spec Terms Responses.
#[local] Open Scope string_scope.

Lemma distinct_NoDup (l : list string) : distinct l = true -> List.NoDup l.
Proof.
  induction l as [|x l IH]; cbn [distinct]; intros H; [constructor|].
  apply andb_true_iff in H. destruct H as [Hx Hl].
  constructor; [|now apply IH].
  intros Hin. apply negb_true_iff in Hx.
  assert (existsb (String.eqb x) l = true) as Hex.
  { apply existsb_exists. exists x. split; [exact Hin|apply String.eqb_refl]. }
  rewrite Hex in Hx. discriminate Hx.
Qed.

Lemma nondecreasing_sorted (l : list UIComponentSpec) :
  nondecreasing (List.map priority l) = true ->
  StronglySorted (ascending priority) l.
Proof.
  intros H. apply Sorted_StronglySorted.
  { intros a b c. unfold ascending. lia. }
  induction l as [|x [|y l] IH]; [constructor|repeat constructor|].
  cbn [List.map nondecreasing] in H. apply andb_true_iff in H.
  destruct H as [Hxy Hrest]. constructor; [now apply IH|].
  constructor. unfold ascending. lia.
Qed.

Lemma registered_resolves (spec : UIComponentSpec) :
  registered (type spec) = true -> resolves spec = true.
Proof.
  unfold registered, resolves, resolveComponent, Js.get.
  now destruct (componentRegistry !! type spec).
Qed.

Lemma filter_all {A : Type} (f : A -> bool) (l : list A) :
  forallb f l = true -> List.filter f l = l.
Proof.
  induction l as [|x l IH]; cbn; intros H; [reflexivity|].
  apply andb_true_iff in H. destruct H as [-> Hl]. now rewrite IH.
Qed.

Lemma template_ok_parts (schema : UISchema) :
  template_ok schema = true ->
  distinct (List.map id (components schema)) = true
  /\ forallb is_visible (components schema) = true
  /\ forallb (fun spec => registered (type spec)) (components schema) = true
  /\ nondecreasing (List.map priority (components schema)) = true
  /\ existsb (String.eqb (layout schema)) ["grid"; "stack"; "split"] = true
  /\ forallb (fun h => registered (hidden_type h))
       (hiddenComponents (reasoning schema)) = true
  /\ forallb
       (fun h =>
          negb (existsb (fun spec => String.eqb (type spec) (hidden_type h))
                  (components schema)))
       (hiddenComponents (reasoning schema)) = true.
Proof.
  unfold template_ok. intros H.
  repeat (apply andb_true_iff in H; destruct H as [H ?]). tauto.
Qed.

Lemma template_cases (name : string) u c :
  In (getResponseForIntent name u c)
    [ incidentResponse c; overviewResponse c; investigationResponse c;
      escalationResponse c; explorationResponse c ].
Proof.
  unfold getResponseForIntent.
  repeat (destruct (String.eqb name _); [cbn; tauto|]). cbn. tauto.
Qed.

Lemma template_ok_all (name : string) u c :
  template_ok (getResponseForIntent name u c) = true.
Proof.
  pose proof (template_cases name u c) as H. cbn [In] in H.
  destruct H as [<-|[<-|[<-|[<-|[<-|[]]]]]]; vm_compute; reflexivity.
Qed.

(** X7.  Whatever intent string, urgency and confidence are passed, the
    document returned has pairwise distinct component ids, only visible
    components of registered type, listed in ascending priority, one of
    the layouts grid, stack and split, and a list of hidden components
    whose types are registered and are not among the components
    shown. *)
Theorem template_invariants (name : string) (u : UrgencyLevel) (c : float) :
  let doc := getResponseForIntent name u c in
  List.NoDup (List.map id (components doc))
  /\ Forall (fun spec => visibility spec = visible
                         /\ registered (type spec) = true) (components doc)
  /\ StronglySorted (ascending priority) (components doc)
  /\ In (layout doc) ["grid"; "stack"; "split"]
  /\ Forall (fun h => registered (hidden_type h) = true
                      /\ forall spec, In spec (components doc) ->
                                      type spec <> hidden_type h)
       (hiddenComponents (reasoning doc)).
Proof.
  cbv zeta.
  destruct (template_ok_parts _ (template_ok_all name u c))
    as (Hid & Hvis & Hreg & Hord & Hlay & Hhid & Hdis).
  split; [now apply distinct_NoDup|].
  split.
  { apply List.Forall_forall. intros spec Hin.
    rewrite forallb_forall in Hvis, Hreg.
    specialize (Hvis spec Hin). specialize (Hreg spec Hin).
    split; [|exact Hreg].
    unfold is_visible in Hvis. now destruct (visibility spec). }
  split; [now apply nondecreasing_sorted|].
  split.
  { apply existsb_exists in Hlay. destruct Hlay as (k & Hk & He).
    apply String.eqb_eq in He. now rewrite He. }
  apply List.Forall_forall. intros h Hh.
  rewrite forallb_forall in Hhid, Hdis.
  specialize (Hhid h Hh). specialize (Hdis h Hh).
  split; [exact Hhid|].
  intros spec Hin Heq. apply negb_true_iff in Hdis.
  assert (existsb (fun spec => String.eqb (type spec) (hidden_type h))
            (components (getResponseForIntent name u c)) = true) as Hex.
  { apply existsb_exists. exists spec. split; [exact Hin|].
    now apply String.eqb_eq. }
  congruence.
Qed.

Lemma ordered_document_placed (schema : UISchema) :
  template_ok schema = true ->
  exists tree,
    content (SentinelComposition schema) = Arranged tree
    /\ Forall2 renders (components schema) (cells tree).
Proof.
  intros H.
  destruct (template_ok_parts _ H)
    as (_ & Hv & Hreg & Hord & Hlay & _ & _).
  pose proof (filter_all _ _ Hv) as Hvis.
  pose proof (sort_sorted_id priority by_priority
                (fun a b => eq_refl) _ (nondecreasing_sorted _ Hord))
    as Hsort.
  assert (List.filter resolves (components schema) = components schema)
    as Hres.
  { apply filter_all. apply forallb_forall. intros spec Hin.
    apply registered_resolves.
    rewrite forallb_forall in Hreg. now apply Hreg. }
  apply existsb_exists in Hlay. destruct Hlay as (k & Hk & He).
  apply String.eqb_eq in He.
  unfold SentinelComposition. cbn [content]. rewrite Hvis, Hsort, He.
  cbn [In] in Hk. destruct Hk as [<-|[<-|[<-|[]]]].
  - exists (GridLayout (components schema)). split; [reflexivity|].
    rewrite <- Hres at 1. eapply renders_as_renders, GridLayout_cells.
  - exists (StackLayout (components schema)). split; [reflexivity|].
    rewrite <- Hres at 1. eapply renders_as_renders, StackLayout_cells.
  - exists (SplitLayout (components schema)). split; [reflexivity|].
    rewrite <- Hres at 1. eapply renders_as_renders, SplitLayout_cells.
Qed.

(** X8.  For every input string, the document of the pipeline names the
    intent the analyzer classified, and composing it gives an
    arrangement whose cells are, one for one and in the order of the
    template, the components of the document: nothing is dropped,
    repeated or reordered. *)
Theorem pipeline_places_every_component (input : Js.js_string) :
  let doc := analyzeSituation input in
  intent (reasoning doc) = Analyzer.classifyIntent input
  /\ exists tree,
      content (SentinelComposition doc) = Arranged tree
      /\ Forall2 renders (components doc) (cells tree).
Proof.
  cbv zeta. split.
  - unfold analyzeSituation, Analyzer.analyze. cbn [Analyzer.intent].
    now destruct (Analyzer.classifyIntent input).
  - apply ordered_document_placed. apply template_ok_all.
Qed.

(** X9.  For every input string the confidence strip of the composed
    pipeline document is amber or green, never red, and the panel's
    label is Medium or High, never Low; for an investigation or an
    exploration it is always amber and Medium. *)
Theorem pipeline_confidence_display (input : Js.js_string) :
  let doc := analyzeSituation input in
  let color := bar_color (SentinelComposition doc) in
  let label := ExplainabilityPanel.confidenceLabel (confidence doc) in
  ((color = "var(--color-accent-amber)" /\ label = "Medium")
   \/ (color = "var(--color-accent-green)" /\ label = "High"))
  /\ (Analyzer.classifyIntent input = investigation
      \/ Analyzer.classifyIntent input = exploration ->
      color = "var(--color-accent-amber)" /\ label = "Medium").
Proof.
  cbv zeta. unfold SentinelComposition. cbn [bar_color].
  rewrite analyzeSituation_confidence.
  pose proof (small_count _ (score_le_13 input (Analyzer.classifyIntent input)))
    as Hin.
  pose proof (proj2 (proj2 (classifyIntent_result input))) as Hpos.
  cbv zeta in Hpos.
  revert Hin Hpos.
  generalize (score input (Analyzer.classifyIntent input)).
  generalize (Analyzer.classifyIntent input). intros i n Hin Hpos.
  assert (i = exploration \/ (1 <= Z.of_nat n)%Z) as Hcase.
  { destruct i; try (right; assert (0 < n) by (apply Hpos; discriminate); lia).
    now left. }
  clear Hpos. revert Hin Hcase. generalize (Z.of_nat n). clear n.
  intros m Hin Hcase. cbn [In] in Hin.
  repeat (destruct Hin as [<-|Hin];
          [destruct i;
           try (destruct Hcase as [Hcase|Hcase];
                [discriminate Hcase|exfalso; lia]);
           vm_compute;
           (split; [tauto|intros [Hi|Hi]; try discriminate Hi; tauto])|]).
  contradiction.
Qed.
End Templates.

(* ================================================================== *)
(** * Further properties of the composition engine *)

Section CompositionMore.
Import Registry Composition Spec Terms.
#[local] Open Scope string_scope.
#[local] Open Scope Z_scope.

(** X10.  The array the engine hands to the layout holds exactly the
    visible entries of the document, in ascending priority, entries of
    equal priority in the order the document lists them; the
    explainability panel lists the same entries in the same order. *)
Theorem layout_input_sorted_stable (schema : UISchema) :
  let sorted := sorted_visible_entries schema in
  ExplainabilityPanel.shownComponents schema = sorted
  /\ Permutation sorted (List.filter is_visible (components schema))
  /\ StronglySorted (ascending priority) sorted
  /\ (forall p,
        List.filter (has_priority p) sorted
        = List.filter (has_priority p)
            (List.filter is_visible (components schema))).
Proof. split; [reflexivity|]. exact (sorted_visible (components schema)). Qed.

(** X11.  In every arrangement the engine returns, the cells are in
    one-to-one correspondence with the visible entries whose registry
    lookup resolves: no such entry is lost or repeated, entries of equal
    priority keep their order, and each run of cells (the single run of
    grid, stack and split, the base and the top run of overlay) is in
    ascending priority. *)
Theorem arrangement_places_each_once (schema : UISchema) (tree : vnode) :
  content (SentinelComposition schema) = Arranged tree ->
  exists base top,
    Forall2 renders (base ++ top) (cells tree)
    /\ Permutation (base ++ top)
         (List.filter resolves (List.filter is_visible (components schema)))
    /\ (forall p,
          List.filter (has_priority p) (base ++ top)
          = List.filter (has_priority p)
              (List.filter resolves
                 (List.filter is_visible (components schema))))
    /\ StronglySorted (ascending priority) base
    /\ StronglySorted (ascending priority) top
    /\ (layout schema = "overlay" \/ top = []).
Proof. exact (composition_arranged schema tree). Qed.

Lemma Forall2_right_in {A B : Type} (R : A -> B -> Prop) l l' b :
  Forall2 R l l' -> In b l' -> exists a, In a l /\ R a b.
Proof.
  induction 1 as [|x y l l' Hxy _ IH]; intros Hin; [contradiction|].
  destruct Hin as [<-|Hin].
  - exists x. split; [now left|exact Hxy].
  - destruct (IH Hin) as (a & Ha & HR). exists a. split; [now right|exact HR].
Qed.

(** X12.  Every cell of an arrangement is the cell of a visible entry of
    the document: a hidden or conditional entry never produces one. *)
Theorem cells_come_from_visible_entries (schema : UISchema) (tree : vnode)
  (c : cell) :
  content (SentinelComposition schema) = Arranged tree ->
  In c (cells tree) ->
  exists spec,
    In spec (components schema)
    /\ visibility spec = visible
    /\ renders spec c.
Proof.
  intros Hc Hin.
  destruct (composition_arranged _ _ Hc) as (base & top & Hr & Hp & _).
  destruct (Forall2_right_in _ _ _ _ Hr Hin) as (spec & Hspec & Hren).
  exists spec. split; [|split; [|exact Hren]].
  - eapply Permutation_in in Hspec; [|exact Hp].
    apply filter_In in Hspec. destruct Hspec as [Hspec _].
    apply filter_In in Hspec. tauto.
  - eapply Permutation_in in Hspec; [|exact Hp].
    apply filter_In in Hspec. destruct Hspec as [Hspec _].
    apply filter_In in Hspec. destruct Hspec as [_ Hv].
    unfold is_visible in Hv. now destruct (visibility spec).
Qed.

(** X13.  A layout value that is neither one of the four strategy
    names nor the name of a member of [Object.prototype] is composed by
    the grid strategy. *)
Theorem unrecognized_layout_uses_grid (schema : UISchema) :
  ~ In (layout schema) layout_names ->
  ~ In (layout schema) Js.object_prototype_keys ->
  content (SentinelComposition schema)
  = Arranged (GridLayout (sorted_visible_entries schema)).
Proof. exact (unknown_layout_grid schema). Qed.


Lemma Forall2_right_all {A B : Type} (R : A -> B -> Prop) (P : B -> Prop)
  l l' :
  (forall a b, R a b -> P b) -> Forall2 R l l' -> Forall P l'.
Proof.
  intros H. induction 1; constructor; eauto.
Qed.

(** X15.  Under the stack and the split layout every cell is full
    width, whatever the type of its entry. *)
Theorem stack_and_split_full_width (l : list UIComponentSpec) :
  Forall (fun c => className c = full_width) (cells (StackLayout l))
  /\ Forall (fun c => className c = full_width) (cells (SplitLayout l)).
Proof.
  split.
  - eapply Forall2_right_all; [|apply StackLayout_cells].
    now intros spec c [_ Hc].
  - eapply Forall2_right_all; [|apply SplitLayout_cells].
    now intros spec c [_ Hc].
Qed.

Lemma sorted_app_le (l1 l2 : list UIComponentSpec) :
  StronglySorted (ascending priority) (l1 ++ l2) ->
  forall a b, In a l1 -> In b l2 -> priority a <= priority b.
Proof.
  induction l1 as [|x l1 IH]; intros Hs a b Ha Hb; [contradiction|].
  cbn [app] in Hs. apply StronglySorted_inv in Hs. destruct Hs as [Hs Hx].
  destruct Ha as [<-|Ha]; [|now apply IH].
  rewrite List.Forall_forall in Hx. apply Hx. apply in_app_iff. now right.
Qed.

(** X16.  The split layout cuts its input after the first
    [ceil(n / 2)] entries: the left column holds the cells of those
    entries, the right column the cells of the others, each in input
    order; the left part has as many entries as the right part or one
    more, and on an input in ascending priority no entry of the left
    part has a greater priority than an entry of the right part. *)
Theorem split_columns (l : list UIComponentSpec) :
  let mid := ceil_half (length l) in
  Forall2 renders (List.filter resolves (firstn mid l))
    (child_cells 0 (SplitLayout l))
  /\ Forall2 renders (List.filter resolves (skipn mid l))
       (child_cells 1 (SplitLayout l))
  /\ (length (firstn mid l) = length (skipn mid l)
      \/ length (firstn mid l) = S (length (skipn mid l)))
  /\ (StronglySorted (ascending priority) l ->
      forall a b, In a (firstn mid l) -> In b (skipn mid l) ->
                  priority a <= priority b).
Proof.
  cbv zeta. unfold SplitLayout. cbn [child_cells nth cells].
  split; [eapply renders_as_renders, row_cells|].
  split; [eapply renders_as_renders, row_cells|].
  split.
  - rewrite length_firstn, length_skipn. unfold ceil_half.
    pose proof (Nat.div_mod_eq (length l + 1) 2) as Hd.
    pose proof (Nat.mod_upper_bound (length l + 1) 2) as Hm. lia.
  - intros Hs. apply sorted_app_le. now rewrite firstn_skipn.
Qed.

(** X17.  The overlay layout renders the container of its top layer
    exactly when some entry of its input has priority at most 2,
    whether or not the type of that entry resolves. *)
Theorem overlay_top_present (l : list UIComponentSpec) :
  overlay_top l = VNull <-> Forall (fun c => 2 < priority c) l.
Proof.
  unfold overlay_top. split.
  - intros H. apply List.Forall_forall. intros c Hin.
    destruct (Z.leb_spec (priority c) 2) as [Hle|Hgt]; [|exact Hgt].
    assert (In c (List.filter (fun c => priority c <=? 2) l)) as Hf.
    { apply filter_In. split; [exact Hin|]. now apply Z.leb_le. }
    destruct (List.filter (fun c => priority c <=? 2) l); [contradiction|].
    discriminate H.
  - intros H.
    assert (List.filter (fun c => priority c <=? 2) l = []) as ->.
    { induction H as [|c l Hc _ IH]; [reflexivity|].
      cbn [List.filter]. destruct (Z.leb_spec (priority c) 2); [lia|exact IH]. }
    reflexivity.
Qed.
End CompositionMore.

(** Witness of X11: a stack document with a hidden entry and an entry
    of unknown type. *)
Lemma arrangement_places_each_once_witness :
  exists base top,
    Forall2 Spec.renders (base ++ top)
      (Composition.cells
         (Composition.StackLayout
            [ Spec.entry "b" "StatusBanner" 1 visible;
              Spec.entry "w" "Widget" 2 visible ]))
    /\ Permutation (base ++ top) [Spec.entry "b" "StatusBanner" 1 visible].
Proof.
  destruct (arrangement_places_each_once
              (Spec.document "stack" 0.9
                 [ Spec.entry "w" "Widget" 2 visible;
                   Spec.entry "h" "LogViewer" 1 hidden;
                   Spec.entry "b" "StatusBanner" 1 visible ])
              (Composition.StackLayout
                 [ Spec.entry "b" "StatusBanner" 1 visible;
                   Spec.entry "w" "Widget" 2 visible ])
              eq_refl)
    as (base & top & Hr & Hp & _).
  exists base, top. split; [exact Hr|exact Hp].
Defined.

(** Witness of X12. *)
Lemma cells_come_from_visible_entries_witness :
  exists spec,
    In spec
      [ Spec.entry "h" "LogViewer" 1 hidden;
        Spec.entry "b" "StatusBanner" 1 visible ]
    /\ visibility spec = visible
    /\ Spec.renders spec
         {| Composition.key := "b";
            Composition.className := Spec.full_width;
            Composition.animationDelay := 60;
            Composition.element := Js.Declared Registry.StatusBanner;
            Composition.element_props := JObj [] |}.
Proof.
  refine (cells_come_from_visible_entries
            (Spec.document "stack" 0.9
               [ Spec.entry "h" "LogViewer" 1 hidden;
                 Spec.entry "b" "StatusBanner" 1 visible ])
            _ _ eq_refl _).
  vm_compute. left. reflexivity.
Defined.

(** Witness of X13: the layout value [masonry]. *)
Lemma unrecognized_layout_uses_grid_witness :
  Composition.content
    (Composition.SentinelComposition
       (Spec.document "masonry" 0.9
          [Spec.entry "b" "StatusBanner" 1 visible]))
  = Composition.Arranged
      (Composition.GridLayout [Spec.entry "b" "StatusBanner" 1 visible]).
Proof.
  refine (unrecognized_layout_uses_grid
            (Spec.document "masonry" 0.9
               [Spec.entry "b" "StatusBanner" 1 visible]) _ _);
    cbn; intros H;
    repeat (destruct H as [H|H]; [discriminate H|]); exact H.
Defined.

(* ================================================================== *)
(** * The input shell and the checklist *)

Section InputShell.
Import Js SituationInput.

Lemma trimStart_split (s : js_string) :
  exists pre,
    s = pre ++ trimStart s
    /\ Forall (fun c => is_space c = true) pre.
Proof.
  induction s as [|c s IH].
  - exists []. split; [reflexivity|constructor].
  - cbn [trimStart]. destruct (is_space c) eqn:E.
    + destruct IH as (pre & Heq & Hpre). exists (c :: pre). split.
      * cbn. now rewrite <- Heq.
      * now constructor.
    + exists []. split; [reflexivity|constructor].
Qed.

Lemma trimStart_head (s : js_string) c rest :
  trimStart s = c :: rest -> is_space c = false.
Proof.
  induction s as [|d s IH]; cbn [trimStart]; [discriminate|].
  destruct (is_space d) eqn:E; [exact IH|].
  intros [= <- <-]. exact E.
Qed.

Lemma trimStart_fixed (s : js_string) :
  (forall c rest, s = c :: rest -> is_space c = false) -> trimStart s = s.
Proof.
  destruct s as [|c rest]; [reflexivity|]. intros H. cbn [trimStart].
  now rewrite (H c rest eq_refl).
Qed.

(** The trimmed text with what was cut off at both ends. *)
Lemma trim_split (s : js_string) :
  exists pre post,
    s = pre ++ trim s ++ post
    /\ Forall (fun c => is_space c = true) pre
    /\ Forall (fun c => is_space c = true) post.
Proof.
  destruct (trimStart_split s) as (pre & Hs & Hpre).
  destruct (trimStart_split (rev (trimStart s))) as (pre2 & Hr & Hpre2).
  exists pre, (rev pre2). split; [|split; [exact Hpre|]].
  - unfold trim. rewrite <- rev_app_distr, <- Hr, rev_involutive. exact Hs.
  - apply List.Forall_forall. intros c Hc. apply in_rev in Hc.
    rewrite List.Forall_forall in Hpre2. now apply Hpre2.
Qed.

Lemma trim_first (s : js_string) c rest :
  trim s = c :: rest -> is_space c = false.
Proof.
  intros Ht.
  destruct (trimStart_split (rev (trimStart s))) as (pre2 & Hr & _).
  assert (trimStart s = trim s ++ rev pre2) as Hs.
  { unfold trim. rewrite <- rev_app_distr, <- Hr. now rewrite rev_involutive. }
  rewrite Ht in Hs. cbn [app] in Hs. exact (trimStart_head _ _ _ Hs).
Qed.

Lemma trim_last (s : js_string) front c :
  trim s = front ++ [c] -> is_space c = false.
Proof.
  unfold trim. intros Ht.
  apply (f_equal (@rev _)) in Ht.
  rewrite rev_involutive, rev_app_distr in Ht. cbn in Ht.
  exact (trimStart_head _ _ _ Ht).
Qed.

(** X18.  Trimming cuts blanks off both ends and nothing else: the
    input is the trimmed text between two runs of blanks, the trimmed
    text neither starts nor ends with a blank, and trimming it again
    changes nothing. *)
Theorem trim_spec (s : js_string) :
  (exists pre post,
      s = pre ++ trim s ++ post
      /\ Forall (fun c => is_space c = true) pre
      /\ Forall (fun c => is_space c = true) post)
  /\ (forall c rest, trim s = c :: rest -> is_space c = false)
  /\ (forall front c, trim s = front ++ [c] -> is_space c = false)
  /\ trim (trim s) = trim s.
Proof.
  split; [apply trim_split|].
  split; [apply trim_first|].
  split; [apply trim_last|].
  assert (trimStart (trim s) = trim s) as H1.
  { apply trimStart_fixed. apply trim_first. }
  unfold trim at 1. rewrite H1.
  rewrite trimStart_fixed; [apply rev_involutive|].
  intros c rest Hr. apply (trim_last s (rev rest) c).
  apply (f_equal (@rev _)) in Hr. rewrite rev_involutive in Hr.
  exact Hr.
Qed.

(** X19.  Submitting the form passes a text on only when the form is
    not loading and the value is not blank; the text passed on is the
    trimmed value, so it is never empty, and the field is cleared.
    Otherwise nothing is passed on and the value stays. *)
Theorem handleSubmit_spec (value : js_string) (isLoading : bool) :
  match handleSubmit value isLoading with
  | (Some text, next) =>
      isLoading = false /\ text = trim value /\ text <> [] /\ next = []
  | (None, next) =>
      next = value
      /\ (isLoading = true \/ Forall (fun c => is_space c = true) value)
  end.
Proof.
  unfold handleSubmit. destruct (trim value) as [|c rest] eqn:Ht.
  - split; [reflexivity|]. right.
    destruct (trim_split value) as (pre & post & Hs & Hpre & Hpost).
    rewrite Ht in Hs. cbn [app] in Hs. rewrite Hs.
    apply Forall_app. split; assumption.
  - destruct isLoading; cbn [negb].
    + split; [reflexivity|now left].
    + repeat split. discriminate.
Qed.
End InputShell.

Set Warnings "-clear-no-such-hyp".

Section Checklist.
Import ActionChecklist.

(** X20.  Clicking a checkbox twice restores the set of checked ids. *)
Theorem toggle_involutive (i : string) (checkedIds : gset string) :
  toggle i (toggle i checkedIds) = checkedIds.
Proof.
  unfold toggle. destruct (decide (i ∈ checkedIds)) as [Hin|Hout].
  - destruct (decide (i ∈ checkedIds ∖ {[i]})) as [H|H]; [set_solver|].
    apply set_eq. intros x. destruct (decide (x = i)); set_solver.
  - destruct (decide (i ∈ checkedIds ∪ {[i]})) as [H|H]; [|set_solver].
    set_solver.
Qed.

Lemma toggle_subseteq (i : string) (checkedIds ids : gset string) :
  i ∈ ids -> checkedIds ⊆ ids -> toggle i checkedIds ⊆ ids.
Proof. unfold toggle. destruct (decide _); set_solver. Qed.

Lemma clicks_subseteq items positions (checkedIds : gset string) :
  checkedIds ⊆ list_to_set (List.map id items) ->
  clicks items positions checkedIds ⊆ list_to_set (List.map id items).
Proof.
  revert checkedIds. induction positions as [|n rest IH];
    intros checkedIds Hsub; [exact Hsub|].
  cbn [clicks]. destruct (nth_error items n) as [item|] eqn:E;
    [|now apply IH].
  apply IH. apply toggle_subseteq; [|exact Hsub].
  apply elem_of_list_to_set, list_elem_of_In, in_map.
  eapply nth_error_In. exact E.
Qed.

Lemma size_list_to_set_le (l : list string) :
  size (list_to_set l : gset string) <= length l.
Proof.
  induction l as [|x l IH]; [now rewrite list_to_set_nil, size_empty|].
  rewrite list_to_set_cons, size_union_alt, size_singleton. cbn [length].
  assert (list_to_set l ∖ {[x]} ⊆ (list_to_set l : gset string)) as Hsub
      by set_solver.
  apply subseteq_size in Hsub. lia.
Qed.

(** X21.  Whatever checkboxes the user clicks, starting from the items
    marked completed, the count shown in the header never exceeds the
    number of items. *)
Theorem checklist_count_bounded (items : list ChecklistItem)
  (positions : list nat) :
  completedCount (clicks items positions (initialChecked items))
  <= total items.
Proof.
  unfold completedCount, total.
  etransitivity.
  - apply subseteq_size. apply (clicks_subseteq items positions).
    unfold initialChecked. intros x Hx.
    apply elem_of_list_to_set, list_elem_of_In in Hx.
    apply elem_of_list_to_set, list_elem_of_In.
    apply in_map_iff in Hx. destruct Hx as (item & <- & Hin).
    apply in_map. apply filter_In in Hin. tauto.
  - etransitivity; [apply size_list_to_set_le|]. now rewrite length_map.
Qed.
End Checklist.

(* ================================================================== *)
(** * Instances of the further properties *)

(** Witness of X1: investigation wins with 3 points, and incident and
    overview, declared before it, stay below. *)
Lemma classifyIntent_maximal_witness :
  Spec.score (Js.of_ascii "Something feels off, help me investigate") overview
  < Spec.score (Js.of_ascii "Something feels off, help me investigate")
      (Analyzer.classifyIntent
         (Js.of_ascii "Something feels off, help me investigate")).
Proof.
  apply (proj1 (proj2 (classifyIntent_maximal
                         (Js.of_ascii
                            "Something feels off, help me investigate")))).
  - vm_compute. lia.
  - vm_compute. lia.
Defined.

(** Witness of X9: an investigation. *)
Lemma pipeline_confidence_display_witness :
  Composition.bar_color
    (Composition.SentinelComposition
       (analyzeSituation
          (Js.of_ascii "Something feels off, help me investigate")))
  = "var(--color-accent-amber)"%string
  /\ ExplainabilityPanel.confidenceLabel
       (confidence
          (analyzeSituation
             (Js.of_ascii "Something feels off, help me investigate")))
     = "Medium"%string.
Proof.
  apply (proj2 (pipeline_confidence_display
                  (Js.of_ascii "Something feels off, help me investigate"))).
  left. vm_compute. reflexivity.
Defined.

(** Witness of X16: three entries in ascending priority; the first of
    the left part against the entry of the right part. *)
Lemma split_columns_witness :
  (priority (Spec.entry "a" "StatusBanner" 1 visible)
   <= priority (Spec.entry "c" "LogViewer" 3 visible))%Z.
Proof.
  apply (proj2 (proj2 (proj2
           (split_columns
              [ Spec.entry "a" "StatusBanner" 1 visible;
                Spec.entry "b" "ChartView" 2 visible;
                Spec.entry "c" "LogViewer" 3 visible ])))).
  - repeat constructor; unfold Spec.ascending; cbn; lia.
  - vm_compute. left. reflexivity.
  - vm_compute. left. reflexivity.
Defined.

(** Witness of X17: only entries of priority above 2. *)
Lemma overlay_top_present_witness :
  Composition.overlay_top
    [ Spec.entry "a" "ChartView" 3 visible;
      Spec.entry "b" "LogViewer" 4 visible ]
  = Composition.VNull.
Proof.
  apply (proj2 (overlay_top_present
                  [ Spec.entry "a" "ChartView" 3 visible;
                    Spec.entry "b" "LogViewer" 4 visible ])).
  repeat constructor; cbn; lia.
Defined.

(** Witness of X18: the value " hi ". *)
Lemma trim_spec_witness : Js.is_space 104%N = false.
Proof.
  apply (proj1 (proj2 (trim_spec (Js.of_ascii " hi "))) 104%N [105%N]).
  vm_compute. reflexivity.
Defined.
